(** * html2win: the automatic build-options selector

    A shallow embedding of [AutoOptionsSelector] and of
    [BuildEngine._build_pyinstaller_command] from [html2exe_pro_premium.py],
    together with the properties of the source analysis and of the
    PyInstaller option list.

    Python values are modelled as follows: [str] is [string], [int] is [Z],
    a [dict] with string keys is a [gmap string PyVal], a raised exception
    is the [Raise] branch of [result].  The operating system (the calls
    into [os], [os.path], [sys] and [open]) is an interface, [OS], over an
    abstract file-system state; [MemFS] is one small instance of it. *)

From Stdlib Require Import ZArith String Ascii List Bool Lia.
From stdpp Require Import base option gmap strings list fin_maps.

Local Open Scope string_scope.
Local Open Scope Z_scope.
Local Open Scope list_scope.

(** ** Exceptions and results *)

Inductive exn : Type :=
| PermissionError
| FileNotFoundError
| NotADirectoryError
| IsADirectoryError
| FileExistsError
| OSError
| KeyError (key : string).

Inductive result (A : Type) : Type :=
| Ok (a : A)
| Raise (e : exn).

Arguments Ok {A} a.
Arguments Raise {A} e.

(** Sequencing: an exception raised by [m] ends the computation. *)
Definition bind {A B} (m : result A) (k : A -> result B) : result B :=
  match m with
  | Ok a => k a
  | Raise e => Raise e
  end.

Notation "'let*' x ':=' m 'in' k" := (bind m (fun x => k))
  (at level 10, x name, m at level 100, k at level 200).

Definition returns {A} (m : result A) : Prop := exists a, m = Ok a.

(** ** Python values and dictionaries *)

Inductive PyVal : Type :=
| VBool (b : bool)
| VStr (s : string).

(** Truth value of an object in a condition. *)
Definition truthy (v : PyVal) : bool :=
  match v with
  | VBool b => b
  | VStr s => negb (String.eqb s "")
  end.

(** [d[k]]: raises [KeyError] when the key is missing. *)
Definition getitem (d : gmap string PyVal) (k : string) : result PyVal :=
  match d !! k with
  | Some v => Ok v
  | None => Raise (KeyError k)
  end.

(** [d.get(k, dflt)]. *)
Definition dict_get (d : gmap string PyVal) (k : string) (dflt : PyVal) : PyVal :=
  default dflt (d !! k).

(** ** String operations *)

(** [s.startswith(p)]. *)
Fixpoint startswith (s p : string) {struct p} : bool :=
  match p with
  | EmptyString => true
  | String c p' =>
      match s with
      | EmptyString => false
      | String d s' => Ascii.eqb c d && startswith s' p'
      end
  end.

(** [s.endswith(suf)]: [suf] is [s] itself or a suffix of its tail. *)
Fixpoint endswith (s suf : string) : bool :=
  String.eqb s suf ||
  match s with
  | EmptyString => false
  | String _ s' => endswith s' suf
  end.

(** [s.endswith((a, b, ...))]: one of the suffixes matches. *)
Definition endswith_any (s : string) (sufs : list string) : bool :=
  existsb (endswith s) sufs.

(** [needle in hay]. *)
Fixpoint str_in (needle hay : string) : bool :=
  startswith hay needle ||
  match hay with
  | EmptyString => false
  | String _ hay' => str_in needle hay'
  end.

(** [s[:n]]. *)
Definition slice_to (n : nat) (s : string) : string := String.substring 0 n s.

(** ** The operating system interface *)

Class OS (FS : Type) : Type := {
  (** [sys.platform] and [sys.executable] *)
  sys_platform : string;
  sys_executable : string;
  (** [os.path.join(a, b)]; with more arguments it is applied from the left *)
  path_join : string -> string -> string;
  (** [os.path.exists] and [os.path.isfile] never raise; the reads below
      leave the state as it is, so the repeated [os.listdir] calls of one
      analysis see the same directory *)
  path_exists : string -> FS -> bool;
  path_isfile : string -> FS -> bool;
  path_getsize : string -> FS -> result Z;
  listdir : string -> FS -> result (list string);
  (** [open(p, 'r', errors='ignore').read()] *)
  read_text : string -> FS -> result string;
  (** [os.makedirs(p, exist_ok=True)] *)
  makedirs : string -> FS -> result FS
}.

Arguments sys_platform {FS os} : rename.
Arguments sys_executable {FS os} : rename.
Arguments path_join {FS os} a b : rename.
Arguments path_exists {FS os} p w : rename.
Arguments path_isfile {FS os} p w : rename.
Arguments path_getsize {FS os} p w : rename.
Arguments listdir {FS os} p w : rename.
Arguments read_text {FS os} p w : rename.
Arguments makedirs {FS os} p w : rename.

(** ** Configuration (the pydantic models) *)

Record AppMetadata : Type := {
  name : string;
  version : string;
  company : string;
  description : string;
  author : string
}.

Record BuildConfig : Type := {
  source_type : string;
  source_path : string;
  output_dir : string;
  offline_mode : bool;
  onefile : bool;
  console : bool;
  debug : bool;
  upx_compress : bool;
  icon_path : string;
  splash_screen : string;
  custom_protocol : string;
  single_instance : bool;
  tray_menu : bool;
  auto_start : bool;
  include_ffmpeg : bool;
  strip_debug : bool
}.

Record AppConfig : Type := {
  metadata : AppMetadata;
  build : BuildConfig
}.

(** ** AutoOptionsSelector *)

Module AutoOptionsSelector.
Section WithOS.
Context {FS : Type} `{os : OS FS}.

(** The dictionary [analyze_source] starts from. *)
Definition recommendations0 : gmap string PyVal :=
  <["optimization_level" := VStr "balanced"]>
  (<["strip_debug" := VBool true]>
  (<["upx_compress" := VBool false]>
  (<["debug" := VBool false]>
  (<["console" := VBool false]>
  (<["onefile" := VBool true]> ∅))))).

(** [len([f for f in os.listdir(p) if os.path.isfile(os.path.join(p, f))])] *)
Definition count_files (p : string) (w : FS) : result Z :=
  let* names := listdir p w in
  Ok (Z.of_nat (length (List.filter (fun f => path_isfile (path_join p f) w) names))).

(** The generator summed for [total_size], over the names already listed:
    a name that is a regular file contributes its [getsize]. *)
Fixpoint sum_sizes (p : string) (w : FS) (names : list string) : result Z :=
  match names with
  | [] => Ok 0
  | f :: rest =>
      if path_isfile (path_join p f) w then
        let* n := path_getsize (path_join p f) w in
        let* r := sum_sizes p w rest in
        Ok (n + r)
      else sum_sizes p w rest
  end.

Definition total_size_of (p : string) (w : FS) : result Z :=
  let* names := listdir p w in
  sum_sizes p w names.

Definition dev_suffixes : list string := [".map"; ".ts"; ".scss"; ".less"].

(** [[f for f in os.listdir(p) if f.endswith(('.map', '.ts', '.scss', '.less'))]] *)
Definition dev_files_of (p : string) (w : FS) : result (list string) :=
  let* names := listdir p w in
  Ok (List.filter (fun f => endswith_any f dev_suffixes) names).

(** The element of the generator given to [any] for a name [f] that passed
    the [.html] filter: [f.endswith('.js') and 'http' in open(...).read()[:1000]].
    The file is opened only when the left operand holds. *)
Definition external_js_test (p : string) (w : FS) (f : string) : result bool :=
  if endswith f ".js" then
    let* txt := read_text (path_join p f) w in
    Ok (str_in "http" (slice_to 1000 txt))
  else Ok false.

(** [any(... for f in names if f.endswith('.html'))]: stops at the first
    true element. *)
Fixpoint any_external_js (p : string) (w : FS) (names : list string) : result bool :=
  match names with
  | [] => Ok false
  | f :: rest =>
      if endswith f ".html" then
        let* b := external_js_test p w f in
        if b then Ok true else any_external_js p w rest
      else any_external_js p w rest
  end.

Definition has_external_js_of (p : string) (w : FS) : result bool :=
  let* names := listdir p w in
  any_external_js p w names.

Definition size_threshold : Z := 50 * 1024 * 1024.

Definition analyze_source (source_path source_type : string) (w : FS)
  : result (gmap string PyVal) :=
  let recommendations := recommendations0 in
  if String.eqb source_type "folder" then
    if path_exists source_path w then
      let* file_count := count_files source_path w in
      let* total_size := total_size_of source_path w in
      let recommendations :=
        if size_threshold <? total_size then
          <["optimization_level" := VStr "size"]>
            (<["onefile" := VBool false]> recommendations)
        else recommendations in
      let* dev_files := dev_files_of source_path w in
      let recommendations :=
        match dev_files with
        | _ :: _ =>
            <["optimization_level" := VStr "production"]>
              (<["strip_debug" := VBool true]> recommendations)
        | [] => recommendations
        end in
      let* has_external_js := has_external_js_of source_path w in
      let recommendations :=
        if has_external_js then <["offline_mode" := VBool true]> recommendations
        else recommendations in
      Ok recommendations
    else Ok recommendations
  else if String.eqb source_type "url" then
    Ok (<["optimization_level" := VStr "portable"]>
           (<["offline_mode" := VBool true]>
           (<["onefile" := VBool true]> recommendations)))
  else Ok recommendations.

(** [f"--hidden-import={imp}"] for each of the fixed imports. *)
Definition hidden_imports : list string :=
  ["flask"; "webview"; "threading"; "json"; "os"; "sys"; "time";
   "urllib.parse"; "base64"; "hashlib"; "datetime"; "tempfile"].

Definition get_optimal_pyinstaller_options (config : AppConfig) (w : FS)
  : result (list string * FS) :=
  let* analysis :=
    analyze_source (source_path (build config)) (source_type (build config)) w in
  let* w := makedirs (output_dir (build config)) w in
  let dist_path := path_join (output_dir (build config)) "dist" in
  let work_path := path_join (path_join (output_dir (build config)) "build") "work" in
  let* w := makedirs dist_path w in
  let* w := makedirs work_path w in
  let options :=
    ["--noconfirm";
     "--clean";
     "--name=" +:+ name (metadata config);
     "--distpath=" +:+ dist_path;
     "--workpath=" +:+ work_path] in
  let* v_onefile := getitem analysis "onefile" in
  let options :=
    if truthy v_onefile then options ++ ["--onefile"]
    else options ++ ["--onedir"] in
  let options :=
    if negb (console (build config)) then options ++ ["--windowed"]
    else options in
  let* v_strip := getitem analysis "strip_debug" in
  let options :=
    if truthy v_strip then options ++ ["--strip"] else options in
  let* v_upx := getitem analysis "upx_compress" in
  let options :=
    if truthy v_upx then options ++ ["--upx-dir=upx"] else options in
  let options :=
    if String.eqb (source_type (build config)) "folder" then
      let html_assets :=
        path_join (path_join (output_dir (build config)) "build") "html_assets" in
      if String.eqb sys_platform "win32" then
        options ++ ["--add-data=" +:+ html_assets +:+ ";html_assets"]
      else
        options ++ ["--add-data=" +:+ html_assets +:+ ":html_assets"]
    else options in
  let options :=
    options ++ map (fun imp => "--hidden-import=" +:+ imp) hidden_imports in
  let options :=
    if negb (String.eqb (icon_path (build config)) "")
       && path_exists (icon_path (build config)) w
    then options ++ ["--icon=" +:+ icon_path (build config)]
    else options in
  Ok (options, w).

End WithOS.
End AutoOptionsSelector.

(** ** BuildEngine *)

Module BuildEngine.
Section WithOS.
Context {FS : Type} `{os : OS FS}.

Definition _build_pyinstaller_command
    (config : AppConfig) (main_script_path : string) (w : FS)
  : result (list string * FS) :=
  let* r := AutoOptionsSelector.get_optimal_pyinstaller_options config w in
  let '(auto_options, w) := r in
  let cmd := [sys_executable; "-m"; "PyInstaller"] ++ auto_options in
  let cmd := cmd ++ [main_script_path] in
  Ok (cmd, w).

End WithOS.
End BuildEngine.

(** ** A small in-memory file system

    A flat table from paths to nodes, used for the concrete scenarios: the
    first entry for a path is the node at that path.  A directory records
    its entry names and whether the process may list it; a regular file
    records its size and its text.  A path names a node in the spelling
    under which it was entered: relative to the working directory or from
    the root, without [.], [..] or a drive; the working directory and the
    root themselves are always there and are not in the table. *)

Module MemFS.

Inductive node : Type :=
| RegFile (size : Z) (text : string)
| Directory (entries : list string) (listable : bool).

Definition table : Type := list (string * node).

Fixpoint node_at (p : string) (w : table) : option node :=
  match w with
  | [] => None
  | (q, n) :: rest => if String.eqb p q then Some n else node_at p rest
  end.

(** [posixpath.join] of two components. *)
Definition posix_join (a b : string) : string :=
  if startswith b "/" then b
  else if String.eqb a "" || endswith a "/" then a +:+ b
  else a +:+ "/" +:+ b.

(** [ntpath.join] of a path and a relative component without a drive. *)
Definition nt_join (a b : string) : string :=
  if String.eqb a "" || endswith_any a ["\"; "/"; ":"] then a +:+ b
  else a +:+ "\" +:+ b.

Definition mem_exists (p : string) (w : table) : bool :=
  match node_at p w with Some _ => true | None => false end.

Definition mem_isfile (p : string) (w : table) : bool :=
  match node_at p w with Some (RegFile _ _) => true | _ => false end.

Definition mem_getsize (p : string) (w : table) : result Z :=
  match node_at p w with
  | Some (RegFile n _) => Ok n
  | Some (Directory _ _) => Ok 4096
  | None => Raise FileNotFoundError
  end.

Definition mem_listdir (p : string) (w : table) : result (list string) :=
  match node_at p w with
  | Some (Directory names true) => Ok names
  | Some (Directory _ false) => Raise PermissionError
  | Some (RegFile _ _) => Raise NotADirectoryError
  | None => Raise FileNotFoundError
  end.

Definition mem_read_text (p : string) (w : table) : result string :=
  match node_at p w with
  | Some (RegFile _ txt) => Ok txt
  | Some (Directory _ _) => Raise IsADirectoryError
  | None => Raise FileNotFoundError
  end.

Definition mem_isdir (p : string) (w : table) : bool :=
  match node_at p w with Some (Directory _ _) => true | _ => false end.

(** The components of a path, and the path of its components. *)
Fixpoint split_on (sep : ascii) (s : string) : list string :=
  match s with
  | EmptyString => [""]
  | String c s' =>
      if Ascii.eqb c sep then "" :: split_on sep s'
      else match split_on sep s' with
           | h :: t => String c h :: t
           | [] => [String c ""]
           end
  end.

Fixpoint join_with (sep : ascii) (comps : list string) : string :=
  match comps with
  | [] => ""
  | [c] => c
  | c :: rest => c +:+ String sep (join_with sep rest)
  end.

(** Replace the node at [p], which is in the table. *)
Fixpoint set_node (p : string) (n : node) (w : table) : table :=
  match w with
  | [] => []
  | (q, m) :: rest =>
      if String.eqb p q then (q, n) :: rest else (q, m) :: set_node p n rest
  end.

(** [os.mkdir(p)]: the path must be free and its parent must be a
    directory (the working directory and the root always are); the parent
    gains the entry. *)
Definition mem_mkdir (sep : ascii) (p : string) (w : table) : result table :=
  if String.eqb p "" then Raise FileNotFoundError
  else
    match node_at p w with
    | Some _ => Raise FileExistsError
    | None =>
        let comps := split_on sep p in
        let parent := join_with sep (removelast comps) in
        if String.eqb parent "" then Ok ((p, Directory [] true) :: w)
        else
          match node_at parent w with
          | Some (Directory names listable) =>
              Ok ((p, Directory [] true)
                  :: set_node parent (Directory (names ++ [List.last comps ""]) listable) w)
          | Some (RegFile _ _) => Raise NotADirectoryError
          | None => Raise FileNotFoundError
          end
    end.

(** Empty components after the first come from doubled or trailing
    separators and name nothing. *)
Definition normalize (comps : list string) : list string :=
  match comps with
  | [] => []
  | c :: rest => c :: List.filter (fun x => negb (String.eqb x "")) rest
  end.

(** [os.makedirs(name, exist_ok=True)], on the components of [name] in
    reverse.  As in the library: split off the last component, create the
    head first when it is missing, ignoring a [FileExistsError] from that,
    then [mkdir] the name; an error of [mkdir] is dropped when the name is
    a directory by then. *)
Fixpoint makedirs_rev (sep : ascii) (rev_comps : list string) (w : table)
  : result table :=
  match rev_comps with
  | [] => Raise FileNotFoundError
  | _ :: rev_head =>
      let name := join_with sep (rev rev_comps) in
      let head := join_with sep (rev rev_head) in
      let* w1 :=
        if negb (String.eqb head "") && negb (mem_exists head w) then
          match makedirs_rev sep rev_head w with
          | Ok w1 => Ok w1
          | Raise FileExistsError => Ok w
          | Raise e => Raise e
          end
        else Ok w in
      match mem_mkdir sep name w1 with
      | Ok w2 => Ok w2
      | Raise e => if mem_isdir name w1 then Ok w1 else Raise e
      end
  end.

(** The empty path is an error; the root is there already. *)
Definition mem_makedirs (sep : ascii) (p : string) (w : table) : result table :=
  if String.eqb p "" then Raise FileNotFoundError
  else
    match normalize (split_on sep p) with
    | [c] => if String.eqb c "" then Ok w else makedirs_rev sep [c] w
    | comps => makedirs_rev sep (rev comps) w
    end.

Definition linux : OS table := {|
  sys_platform := "linux";
  sys_executable := "/usr/bin/python3";
  path_join := posix_join;
  path_exists := mem_exists;
  path_isfile := mem_isfile;
  path_getsize := mem_getsize;
  listdir := mem_listdir;
  read_text := mem_read_text;
  makedirs := mem_makedirs "/"
|}.

Definition win32 : OS table := {|
  sys_platform := "win32";
  sys_executable := "C:\Python311\python.exe";
  path_join := nt_join;
  path_exists := mem_exists;
  path_isfile := mem_isfile;
  path_getsize := mem_getsize;
  listdir := mem_listdir;
  read_text := mem_read_text;
  makedirs := mem_makedirs "\"
|}.

(** [/site]: an [index.html] next to a script that loads from a CDN. *)
Definition site_cdn : table :=
  [("/site", Directory ["index.html"; "app.js"] true);
   ("/site/index.html", RegFile 64 "<script src=app.js></script>");
   ("/site/app.js", RegFile 40 "load('http://cdn.example.com/lib.js');")].

(** [/big]: one 60 MiB file, no development artefacts. *)
Definition site_big : table :=
  [("/big", Directory ["video.bin"] true);
   ("/big/video.bin", RegFile (60 * 1024 * 1024) "")].

(** [/big_dev]: a 60 MiB file next to a source map. *)
Definition site_big_dev : table :=
  [("/big_dev", Directory ["video.bin"; "bundle.js.map"] true);
   ("/big_dev/video.bin", RegFile (60 * 1024 * 1024) "");
   ("/big_dev/bundle.js.map", RegFile 2048 "{}")].

(** [/locked]: a directory the process may not list. *)
Definition site_locked : table :=
  [("/locked", Directory ["index.html"] false);
   ("/locked/index.html", RegFile 64 "<html></html>")].

(** The table after the three [makedirs] of a build into [out], when
    [out] was not there. *)
Definition with_output_dirs (sep : string) (w : table) : table :=
  ("out" +:+ sep +:+ "build" +:+ sep +:+ "work", Directory [] true)
  :: ("out" +:+ sep +:+ "build", Directory ["work"] true)
  :: ("out" +:+ sep +:+ "dist", Directory [] true)
  :: ("out", Directory ["dist"; "build"] true) :: w.

End MemFS.

Definition default_metadata : AppMetadata := {|
  name := "MyHTMLApp";
  version := "1.0.0";
  company := "My Company";
  description := "HTML Desktop Application";
  author := "Developer"
|}.

(** A [BuildConfig] with the model's defaults, but for the fields given. *)
Definition build_config (ty path out : string) (con : bool) (icon : string)
  : BuildConfig := {|
  source_type := ty;
  source_path := path;
  output_dir := out;
  offline_mode := false;
  onefile := true;
  console := con;
  debug := false;
  upx_compress := false;
  icon_path := icon;
  splash_screen := "";
  custom_protocol := "";
  single_instance := true;
  tray_menu := true;
  auto_start := false;
  include_ffmpeg := false;
  strip_debug := true
|}.

Definition app_config (ty path out : string) (con : bool) (icon : string)
  : AppConfig :=
  {| metadata := default_metadata; build := build_config ty path out con icon |}.

(** ** The recommendation as the callers read it

    The callers of [analyze_source] read the dictionary field by field:
    [analysis["onefile"]], ..., [analysis.get("offline_mode", False)] and
    [analysis["optimization_level"]].  [recommendation_of] is that reading,
    into the record of the specification. *)

Inductive OptimizationProfile : Type := Balanced | Size | Production | Portable.

Record Recommendation : Type := {
  singleFile : bool;
  showConsole : bool;
  debugMode : bool;
  compress : bool;
  stripDebugInfo : bool;
  offlineMode : bool;
  optimizationProfile : OptimizationProfile
}.

Definition profile_of (v : PyVal) : option OptimizationProfile :=
  match v with
  | VStr s =>
      if String.eqb s "balanced" then Some Balanced
      else if String.eqb s "size" then Some Size
      else if String.eqb s "production" then Some Production
      else if String.eqb s "portable" then Some Portable
      else None
  | VBool _ => None
  end.

Definition recommendation_of (d : gmap string PyVal) : option Recommendation :=
  match d !! "onefile", d !! "console", d !! "debug", d !! "upx_compress",
        d !! "strip_debug", d !! "optimization_level" with
  | Some v1, Some v2, Some v3, Some v4, Some v5, Some v6 =>
      match profile_of v6 with
      | Some prof =>
          Some {| singleFile := truthy v1;
                  showConsole := truthy v2;
                  debugMode := truthy v3;
                  compress := truthy v4;
                  stripDebugInfo := truthy v5;
                  offlineMode := truthy (dict_get d "offline_mode" (VBool false));
                  optimizationProfile := prof |}
      | None => None
      end
  | _, _, _, _, _, _ => None
  end.

(** The defaults of the specification. *)
Definition default_recommendation : Recommendation := {|
  singleFile := true;
  showConsole := false;
  debugMode := false;
  compress := false;
  stripDebugInfo := true;
  offlineMode := false;
  optimizationProfile := Balanced
|}.

(** ** The directive list in the order of the specification

    (a) name, (b) distribution path then work path, (c) packaging mode,
    (d) windowed unless the console flag is set, (e) compression,
    (f) strip, (g) data inclusion, (h) hidden imports, (i) icon. *)

Definition spec_directives
    (app_name dist work : string) (r : Recommendation) (console_flag : bool)
    (data icon : option string) : list string :=
  ["--name=" +:+ app_name]
  ++ ["--distpath=" +:+ dist; "--workpath=" +:+ work]
  ++ [if singleFile r then "--onefile" else "--onedir"]
  ++ (if console_flag then [] else ["--windowed"])
  ++ (if compress r then ["--upx-dir=upx"] else [])
  ++ (if stripDebugInfo r then ["--strip"] else [])
  ++ option_list data
  ++ map (fun imp => "--hidden-import=" +:+ imp) AutoOptionsSelector.hidden_imports
  ++ option_list icon.

(** Directive classes, recognised by their text. *)
Definition is_packaging_mode (o : string) : bool :=
  String.eqb o "--onefile" || String.eqb o "--onedir".

Definition is_data_inclusion (o : string) : bool := startswith o "--add-data=".

Definition is_compression (o : string) : bool := startswith o "--upx-dir".

(** Sum of the sizes of the regular files among [names], given the size of
    each name. *)
Definition top_level_size (is_regular : string -> bool) (size_of : string -> Z)
    (names : list string) : Z :=
  fold_right Z.add 0 (map size_of (List.filter is_regular names)).

(** The dictionary a folder analysis ends with, when no file is found to
    load an external script. *)
Definition folder_dict (big dev : bool) : gmap string PyVal :=
  let r := AutoOptionsSelector.recommendations0 in
  let r :=
    if big then <["optimization_level" := VStr "size"]> (<["onefile" := VBool false]> r)
    else r in
  if dev then <["optimization_level" := VStr "production"]> (<["strip_debug" := VBool true]> r)
  else r.

Definition url_dict : gmap string PyVal :=
  <["optimization_level" := VStr "portable"]>
    (<["offline_mode" := VBool true]>
    (<["onefile" := VBool true]> AutoOptionsSelector.recommendations0)).

(** A folder build of [/site] into [out], windowed, without an icon. *)
Definition site_config : AppConfig := app_config "folder" "/site" "out" false "".

(** A URL build into [out], with a console. *)
Definition url_config : AppConfig :=
  app_config "url" "https://example.com" "out" true "".

(** The options of the folder build of [/site], for a path separator and
    a data separator. *)
Definition site_options (sep data_sep : string) : list string :=
  ["--noconfirm"; "--clean"; "--name=MyHTMLApp";
   "--distpath=out" +:+ sep +:+ "dist";
   "--workpath=out" +:+ sep +:+ "build" +:+ sep +:+ "work";
   "--onefile"; "--windowed"; "--strip";
   "--add-data=out" +:+ sep +:+ "build" +:+ sep +:+ "html_assets" +:+ data_sep
     +:+ "html_assets";
   "--hidden-import=flask"; "--hidden-import=webview";
   "--hidden-import=threading"; "--hidden-import=json";
   "--hidden-import=os"; "--hidden-import=sys";
   "--hidden-import=time"; "--hidden-import=urllib.parse";
   "--hidden-import=base64"; "--hidden-import=hashlib";
   "--hidden-import=datetime"; "--hidden-import=tempfile"].

Import AutoOptionsSelector.

(** The paths and the two optional directives of a configuration. *)
Section Directives.
Context {FS : Type} `{os : OS FS}.

Definition dist_path_of (config : AppConfig) : string :=
  path_join (output_dir (build config)) "dist".

Definition work_path_of (config : AppConfig) : string :=
  path_join (path_join (output_dir (build config)) "build") "work".

Definition html_assets_of (config : AppConfig) : string :=
  path_join (path_join (output_dir (build config)) "build") "html_assets".

(** [;] between source and destination on Windows, [:] elsewhere. *)
Definition data_separator : string :=
  if String.eqb sys_platform "win32" then ";" else ":".

(** (g): present for a folder source only. *)
Definition data_directive (config : AppConfig) : option string :=
  if String.eqb (source_type (build config)) "folder"
  then Some ("--add-data=" +:+ html_assets_of config +:+ data_separator +:+ "html_assets")
  else None.

(** (i): present when the icon path is set and exists. *)
Definition icon_directive (config : AppConfig) (w : FS) : option string :=
  if negb (String.eqb (icon_path (build config)) "")
     && path_exists (icon_path (build config)) w
  then Some ("--icon=" +:+ icon_path (build config))
  else None.

(** The whole option list, in the order of the specification. *)
Definition spec_options (config : AppConfig) (r : Recommendation) (w : FS)
  : list string :=
  "--noconfirm" :: "--clean" ::
  spec_directives (name (metadata config)) (dist_path_of config)
    (work_path_of config) r (console (build config))
    (data_directive config) (icon_directive config w).

End Directives.

(** ** The rest of the build engine

    [BuildEngine.__init__] and [BuildEngine._get_exe_path]. *)

Module Engine.
Section WithOS.
Context {FS : Type} `{os : OS FS}.

Definition build_dir (config : AppConfig) : string :=
  path_join (output_dir (build config)) "build".

Definition dist_dir (config : AppConfig) : string :=
  path_join (output_dir (build config)) "dist".

Definition _get_exe_path (config : AppConfig) : string :=
  if onefile (build config) then
    path_join (dist_dir config) (name (metadata config) +:+ ".exe")
  else
    path_join (path_join (dist_dir config) (name (metadata config)))
      (name (metadata config) +:+ ".exe").

End WithOS.
End Engine.

(** ** Applying an analysis to a configuration

    The command-line entry points choose the source type from the text of
    the source, and [auto_build] and [_quick_build] copy the analysis into
    the build configuration.  The configuration fields are booleans that
    the code only tests, so a copied value is kept as its truth value. *)

(** ["url" if src.startswith(("http://", "https://")) else "folder"] *)
Definition detect_source_type (src : string) : string :=
  if startswith src "http://" || startswith src "https://" then "url"
  else "folder".

Definition apply_recommendations (analysis : gmap string PyVal) (config : AppConfig)
  : result AppConfig :=
  let b := build config in
  let* v_onefile := getitem analysis "onefile" in
  let* v_console := getitem analysis "console" in
  let* v_debug := getitem analysis "debug" in
  let* v_upx := getitem analysis "upx_compress" in
  let* v_strip := getitem analysis "strip_debug" in
  let v_offline := dict_get analysis "offline_mode" (VBool false) in
  Ok {| metadata := metadata config;
        build := {| source_type := source_type b;
                    source_path := source_path b;
                    output_dir := output_dir b;
                    offline_mode := truthy v_offline;
                    onefile := truthy v_onefile;
                    console := truthy v_console;
                    debug := truthy v_debug;
                    upx_compress := truthy v_upx;
                    icon_path := icon_path b;
                    splash_screen := splash_screen b;
                    custom_protocol := custom_protocol b;
                    single_instance := single_instance b;
                    tray_menu := tray_menu b;
                    auto_start := auto_start b;
                    include_ffmpeg := include_ffmpeg b;
                    strip_debug := truthy v_strip |} |}.

(** ** The earlier build engine

    [BuildEngine._build_pyinstaller_command] of [demo_auto_build.py], which
    takes every option from the configuration. *)

Module Legacy.
Section WithOS.
Context {FS : Type} `{os : OS FS}.

Definition hidden_imports : list string :=
  ["flask"; "webview"; "threading"; "json"; "os"; "sys"; "time"].

Definition _build_pyinstaller_command
    (config : AppConfig) (main_script_path : string) (w : FS) : list string :=
  let build_dir := path_join (output_dir (build config)) "build" in
  let dist_dir := path_join (output_dir (build config)) "dist" in
  let cmd :=
    [sys_executable; "-m"; "PyInstaller";
     "--noconfirm";
     "--clean";
     "--name=" +:+ name (metadata config);
     "--distpath=" +:+ dist_dir;
     "--workpath=" +:+ path_join build_dir "work"] in
  let cmd := if onefile (build config) then cmd ++ ["--onefile"] else cmd in
  let cmd := if negb (console (build config)) then cmd ++ ["--windowed"] else cmd in
  let cmd :=
    if negb (String.eqb (icon_path (build config)) "")
       && path_exists (icon_path (build config)) w
    then cmd ++ ["--icon=" +:+ icon_path (build config)]
    else cmd in
  let cmd :=
    if String.eqb (source_type (build config)) "folder" then
      let html_assets := path_join build_dir "html_assets" in
      cmd ++ ["--add-data=" +:+ html_assets +:+ ";html_assets"]
    else cmd in
  let cmd := cmd ++ map (fun imp => "--hidden-import=" +:+ imp) hidden_imports in
  let cmd := if upx_compress (build config) then cmd ++ ["--upx-dir=upx"] else cmd in
  let cmd :=
    if debug (build config) then cmd ++ ["--debug=all"] else cmd ++ ["--strip"] in
  cmd ++ [main_script_path].

End WithOS.
End Legacy.

(** ** The step counter of the wizard

    [ModernGUI._show_step], [_next_step] and [_prev_step], as functions of
    [current_step]; the widget updates and the synchronisation of the
    configuration from the form do not touch it. *)

Module ModernGUI.

Definition steps : list string :=
  ["Source"; "Metadata"; "Window"; "Security"; "Build"; "Advanced"; "Review"].

(** The keys of [step_frames], as [_create_step_frames] fills it. *)
Definition step_frames : list Z := [0; 1; 2; 3; 4; 5; 6].

Definition _show_step (step_index current_step : Z) : Z :=
  if existsb (Z.eqb step_index) step_frames then step_index else current_step.

Definition _next_step (current_step : Z) : Z :=
  if current_step <? Z.of_nat (length steps) - 1
  then _show_step (current_step + 1) current_step
  else current_step.

Definition _prev_step (current_step : Z) : Z :=
  if 0 <? current_step
  then _show_step (current_step - 1) current_step
  else current_step.

(** What the user can do: the two footer buttons, or a sidebar button
    (the sidebar has one button per index; any index is allowed here). *)
Inductive action : Type :=
| Next
| Prev
| Show (step_index : Z).

Definition step (current_step : Z) (a : action) : Z :=
  match a with
  | Next => _next_step current_step
  | Prev => _prev_step current_step
  | Show i => _show_step i current_step
  end.

Definition run (actions : list action) (current_step : Z) : Z :=
  fold_left step actions current_step.

End ModernGUI.

(** An operating system that differs from [os] in the file reader only. *)
Definition with_read_text {FS : Type} (os : OS FS)
    (reader : string -> FS -> result string) : OS FS := {|
  sys_platform := sys_platform (os := os);
  sys_executable := sys_executable (os := os);
  path_join := path_join (os := os);
  path_exists := path_exists (os := os);
  path_isfile := path_isfile (os := os);
  path_getsize := path_getsize (os := os);
  listdir := listdir (os := os);
  read_text := reader;
  makedirs := makedirs (os := os)
|}.

(** [/big_types]: a 60 MiB file next to a sub-directory named [types.ts];
    no regular file has a development suffix. *)
Definition site_big_types : MemFS.table :=
  [("/big_types", MemFS.Directory ["video.bin"; "types.ts"] true);
   ("/big_types/video.bin", MemFS.RegFile (60 * 1024 * 1024) "");
   ("/big_types/types.ts", MemFS.Directory [] true)].

(** The Linux instance with a size read that fails at one path, as for a
    file that vanished after the listing or a device that reports an
    error. *)
Definition linux_size_error (bad : string) (e : exn) : OS MemFS.table := {|
  sys_platform := "linux";
  sys_executable := "/usr/bin/python3";
  path_join := MemFS.posix_join;
  path_exists := MemFS.mem_exists;
  path_isfile := MemFS.mem_isfile;
  path_getsize :=
    fun p w => if String.eqb p bad then Raise e else MemFS.mem_getsize p w;
  listdir := MemFS.mem_listdir;
  read_text := MemFS.mem_read_text;
  makedirs := MemFS.mem_makedirs "/"
|}.

(** [/exact]: one file of exactly 50 MiB. *)
Definition site_exact : MemFS.table :=
  [("/exact", MemFS.Directory ["data.bin"] true);
   ("/exact/data.bin", MemFS.RegFile (50 * 1024 * 1024) "")].

(** A URL build that asks for a directory build, with a console, UPX and
    debugging. *)
Definition url_onedir_config : AppConfig := {|
  metadata := default_metadata;
  build := {| source_type := "url";
              source_path := "https://example.com";
              output_dir := "out";
              offline_mode := false;
              onefile := false;
              console := true;
              debug := true;
              upx_compress := true;
              icon_path := "";
              splash_screen := "";
              custom_protocol := "";
              single_instance := true;
              tray_menu := true;
              auto_start := false;
              include_ffmpeg := false;
              strip_debug := false |}
|}.

(** A console build of [/big] into [out]. *)
Definition big_config : AppConfig := app_config "folder" "/big" "out" true "".

(** [big_config] after the analysis of [/big] is copied into it. *)
Definition big_config_applied : AppConfig := {|
  metadata := default_metadata;
  build := {| source_type := "folder";
              source_path := "/big";
              output_dir := "out";
              offline_mode := false;
              onefile := false;
              console := false;
              debug := false;
              upx_compress := false;
              icon_path := "";
              splash_screen := "";
              custom_protocol := "";
              single_instance := true;
              tray_menu := true;
              auto_start := false;
              include_ffmpeg := false;
              strip_debug := true |}
|}.

(** A build of [/site] whose output directory is taken by a regular file. *)
Definition blocked_output_config : AppConfig :=
  app_config "folder" "/site" "/site/index.html" false "".

(** A directory build of [/site] with UPX, without debugging. *)
Definition legacy_config : AppConfig := {|
  metadata := default_metadata;
  build := {| source_type := "folder";
              source_path := "/site";
              output_dir := "out";
              offline_mode := false;
              onefile := false;
              console := false;
              debug := false;
              upx_compress := true;
              icon_path := "";
              splash_screen := "";
              custom_protocol := "";
              single_instance := true;
              tray_menu := true;
              auto_start := false;
              include_ffmpeg := false;
              strip_debug := false |}
|}.

(** The options of the earlier engine, between the interpreter call and
    the entry-point path, listed part by part. *)
Section LegacyOptions.
Context {FS : Type} `{os : OS FS}.

Definition legacy_options (config : AppConfig) (w : FS) : list string :=
  ["--noconfirm"; "--clean";
   "--name=" +:+ name (metadata config);
   "--distpath=" +:+ Engine.dist_dir config;
   "--workpath=" +:+ path_join (Engine.build_dir config) "work"]
  ++ (if onefile (build config) then ["--onefile"] else [])
  ++ (if console (build config) then [] else ["--windowed"])
  ++ option_list (icon_directive config w)
  ++ (if String.eqb (source_type (build config)) "folder"
      then ["--add-data=" +:+ path_join (Engine.build_dir config) "html_assets"
              +:+ ";html_assets"]
      else [])
  ++ map (fun imp => "--hidden-import=" +:+ imp) Legacy.hidden_imports
  ++ (if upx_compress (build config) then ["--upx-dir=upx"] else [])
  ++ [if debug (build config) then "--debug=all" else "--strip"].

End LegacyOptions.

(** * Properties *)

(** ** Strings *)

Lemma endswith_html_not_js (f : string) :
  endswith f ".html" = true -> endswith f ".js" = false.
Proof.
  induction f as [|c f IH]; [discriminate|].
  intros H. cbn [endswith] in H. apply orb_true_iff in H as [Heq | Htl].
  - apply String.eqb_eq in Heq. rewrite Heq. reflexivity.
  - cbn [endswith]. rewrite (IH Htl), orb_false_r.
    apply String.eqb_neq. intros Heq. injection Heq as _ Hf.
    subst f. discriminate Htl.
Qed.

(** The two tests on strings mean what they should. *)
Lemma startswith_spec (s p : string) :
  startswith s p = true <-> exists rest, s = p +:+ rest.
Proof.
  revert s. induction p as [|c p IH]; intros s; cbn [startswith].
  - split; [intros _; exists s; reflexivity | reflexivity].
  - destruct s as [|d s].
    + split; [discriminate | intros [rest Hr]; discriminate Hr].
    + rewrite andb_true_iff, Ascii.eqb_eq, IH. split.
      * intros [-> [rest ->]]. exists rest. reflexivity.
      * intros [rest Hr]. cbn in Hr. injection Hr as -> ->. eauto.
Qed.

Lemma endswith_spec (s suf : string) :
  endswith s suf = true <-> exists pre, s = pre +:+ suf.
Proof.
  induction s as [|c s IH]; cbn [endswith].
  - rewrite orb_false_r, String.eqb_eq. split.
    + intros <-. exists "". reflexivity.
    + intros [pre Hp]. destruct pre; [exact Hp | discriminate Hp].
  - rewrite orb_true_iff, String.eqb_eq, IH. split.
    + intros [<- | [pre ->]]; [exists ""; reflexivity|].
      exists (String c pre). reflexivity.
    + intros [pre Hp]. destruct pre as [|d pre].
      * left. exact Hp.
      * right. cbn in Hp. injection Hp as -> ->. eauto.
Qed.

Lemma match_filter_existsb {A B} (f : A -> bool) (l : list A) (x y : B) :
  match List.filter f l with _ :: _ => x | [] => y end
  = if existsb f l then x else y.
Proof.
  induction l as [|a l IH]; [reflexivity|].
  simpl. destruct (f a); [reflexivity | exact IH].
Qed.

Lemma existsb_false_Forall {A} (f : A -> bool) (l : list A) :
  (forall a, In a l -> f a = false) -> existsb f l = false.
Proof.
  intros H. induction l as [|a l IH]; [reflexivity|].
  simpl. rewrite (H a (or_introl eq_refl)). apply IH.
  intros b Hb. apply H. right. exact Hb.
Qed.

(** ** The source analysis *)

Section Analysis.
Context {FS : Type} `{os : OS FS}.

(** No name ends with both [.html] and [.js]: the generator given to [any]
    never opens a file and never yields [True]. *)
Lemma any_external_js_false (p : string) (w : FS) (names : list string) :
  any_external_js p w names = Ok false.
Proof.
  induction names as [|f rest IH]; [reflexivity|].
  cbn [any_external_js].
  destruct (endswith f ".html") eqn:Hh; [|exact IH].
  unfold external_js_test. rewrite (endswith_html_not_js f Hh).
  cbn [bind]. exact IH.
Qed.

Lemma sum_sizes_top_level (p : string) (w : FS) (size_of : string -> Z)
    (names : list string) :
  (forall g, In g names -> path_isfile (path_join p g) w = true ->
             path_getsize (path_join p g) w = Ok (size_of g)) ->
  sum_sizes p w names
  = Ok (top_level_size (fun g => path_isfile (path_join p g) w) size_of names).
Proof.
  unfold top_level_size.
  induction names as [|f rest IH]; intros H; [reflexivity|].
  cbn [sum_sizes List.filter].
  destruct (path_isfile (path_join p f) w) eqn:Hf.
  - rewrite (H f (or_introl eq_refl) Hf). cbn [bind].
    rewrite IH by (intros g Hg; apply H; right; exact Hg).
    reflexivity.
  - apply IH. intros g Hg. apply H. right. exact Hg.
Qed.

Lemma sum_sizes_returns (p : string) (w : FS) (names : list string) :
  (forall g, In g names -> path_isfile (path_join p g) w = true ->
             returns (path_getsize (path_join p g) w)) ->
  returns (sum_sizes p w names).
Proof.
  induction names as [|f rest IH]; intros H; [eexists; reflexivity|].
  cbn [sum_sizes].
  destruct IH as [r Hr]; [intros g Hg; apply H; right; exact Hg|].
  destruct (path_isfile (path_join p f) w) eqn:Hf.
  - destruct (H f (or_introl eq_refl) Hf) as [n Hn].
    rewrite Hn, Hr. eexists; reflexivity.
  - eexists; exact Hr.
Qed.

(** The first size read that fails ends the sum with its error. *)
Lemma sum_sizes_first_failure (p : string) (w : FS)
    (pre : list string) (g : string) (post : list string) (e : exn) :
  (forall h, In h pre -> path_isfile (path_join p h) w = true ->
             returns (path_getsize (path_join p h) w)) ->
  path_isfile (path_join p g) w = true ->
  path_getsize (path_join p g) w = Raise e ->
  sum_sizes p w (pre ++ g :: post) = Raise e.
Proof.
  intros Hpre Hg He. induction pre as [|h pre IH]; cbn [app sum_sizes].
  - rewrite Hg, He. reflexivity.
  - rewrite IH by (intros k Hk; apply Hpre; right; exact Hk).
    destruct (path_isfile (path_join p h) w) eqn:Hh; [|reflexivity].
    destruct (Hpre h (or_introl eq_refl) Hh) as [n Hn]. rewrite Hn. reflexivity.
Qed.

(** The sum returns only if every size read of a regular file returns. *)
Lemma sum_sizes_returns_inv (p : string) (w : FS) (names : list string) :
  returns (sum_sizes p w names) ->
  forall g, In g names -> path_isfile (path_join p g) w = true ->
            returns (path_getsize (path_join p g) w).
Proof.
  induction names as [|f rest IH]; intros [r Hr] g Hin Hg; [destruct Hin|].
  cbn [sum_sizes] in Hr.
  destruct (path_isfile (path_join p f) w) eqn:Hf.
  - destruct (path_getsize (path_join p f) w) as [n|e] eqn:Hn; [|discriminate Hr].
    cbn [bind] in Hr.
    destruct (sum_sizes p w rest) as [r'|e] eqn:Hrest; [|discriminate Hr].
    destruct Hin as [<-|Hin].
    + rewrite Hn. eexists; reflexivity.
    + apply IH; [eexists; reflexivity | exact Hin | exact Hg].
  - destruct Hin as [<-|Hin]; [congruence|].
    apply IH; [eexists; exact Hr | exact Hin | exact Hg].
Qed.

Lemma analyze_folder_missing (p : string) (w : FS) :
  path_exists p w = false -> analyze_source p "folder" w = Ok recommendations0.
Proof. intros H. unfold analyze_source. cbn. rewrite H. reflexivity. Qed.

Lemma analyze_folder_listdir_raise (p : string) (w : FS) (e : exn) :
  path_exists p w = true -> listdir p w = Raise e ->
  analyze_source p "folder" w = Raise e.
Proof.
  intros Hex Hl. unfold analyze_source, count_files. cbn.
  rewrite Hex, Hl. reflexivity.
Qed.

Lemma analyze_folder_size_raise (p : string) (w : FS) (names : list string) (e : exn) :
  path_exists p w = true -> listdir p w = Ok names ->
  sum_sizes p w names = Raise e ->
  analyze_source p "folder" w = Raise e.
Proof.
  intros Hex Hl Hs. unfold analyze_source, count_files, total_size_of. cbn.
  rewrite Hex, Hl. cbn [bind]. rewrite Hs. reflexivity.
Qed.

Lemma analyze_folder_listed (p : string) (w : FS) (names : list string) (total : Z) :
  path_exists p w = true -> listdir p w = Ok names ->
  sum_sizes p w names = Ok total ->
  analyze_source p "folder" w
  = Ok (folder_dict (size_threshold <? total)
                    (existsb (fun f => endswith_any f dev_suffixes) names)).
Proof.
  intros Hex Hl Hs.
  unfold analyze_source, count_files, total_size_of, dev_files_of,
    has_external_js_of, folder_dict.
  cbn [String.eqb Ascii.eqb Bool.eqb]. rewrite Hex, Hl. cbn [bind]. rewrite Hs. cbn [bind].
  rewrite any_external_js_false. cbn [bind].
  rewrite match_filter_existsb. reflexivity.
Qed.

Lemma analyze_url (loc : string) (w : FS) :
  analyze_source loc "url" w = Ok url_dict.
Proof. reflexivity. Qed.

(** Every dictionary the analysis can return: the one of a URL source, or
    one of the four a folder analysis can end with (the defaults are
    [folder_dict false false]). *)
Lemma analyze_source_cases (p t : string) (w : FS) (d : gmap string PyVal) :
  analyze_source p t w = Ok d ->
  d = url_dict \/ exists big dev, d = folder_dict big dev.
Proof.
  intros H.
  destruct (String.eqb t "folder") eqn:Ht.
  - apply String.eqb_eq in Ht. subst t. right.
    destruct (path_exists p w) eqn:Hex.
    + destruct (listdir p w) as [names|e] eqn:Hl.
      * destruct (sum_sizes p w names) as [total|e] eqn:Hs.
        -- rewrite (analyze_folder_listed p w names total Hex Hl Hs) in H.
           injection H as <-. eauto.
        -- rewrite (analyze_folder_size_raise p w names e Hex Hl Hs) in H.
           discriminate.
      * rewrite (analyze_folder_listdir_raise p w e Hex Hl) in H. discriminate.
    + rewrite (analyze_folder_missing p w Hex) in H.
      injection H as <-. exists false, false. reflexivity.
  - unfold analyze_source in H. rewrite Ht in H.
    destruct (String.eqb t "url").
    + left. injection H as <-. reflexivity.
    + right. injection H as <-. exists false, false. reflexivity.
Qed.

(** A folder analysis never records [offline_mode]. *)
Lemma analyze_folder_offline_absent (p : string) (w : FS) (d : gmap string PyVal) :
  analyze_source p "folder" w = Ok d -> d !! "offline_mode" = None.
Proof.
  intros H.
  destruct (path_exists p w) eqn:Hex.
  - destruct (listdir p w) as [names|e] eqn:Hl.
    + destruct (sum_sizes p w names) as [total|e] eqn:Hs.
      * rewrite (analyze_folder_listed p w names total Hex Hl Hs) in H.
        injection H as <-.
        destruct (size_threshold <? total), (existsb _ names); reflexivity.
      * rewrite (analyze_folder_size_raise p w names e Hex Hl Hs) in H.
        discriminate.
    + rewrite (analyze_folder_listdir_raise p w e Hex Hl) in H. discriminate.
  - rewrite (analyze_folder_missing p w Hex) in H. injection H as <-. reflexivity.
Qed.

(** C2, as amended: [analyze_source] handles no exception.  On a folder
    source it returns the defaults when the path does not exist; when the
    path exists, an error raised by listing the directory reaches the
    caller, and so does the error of the first size read of a listed
    regular file that fails, so that no dictionary is returned when any
    such size read fails; when the listing and the size reads succeed a
    dictionary is returned (no file content is ever opened, so an
    unreadable content cannot fail it). *)
Theorem C2_io_errors_propagate (p : string) (w : FS) :
  (path_exists p w = false -> analyze_source p "folder" w = Ok recommendations0)
  /\ (forall e, path_exists p w = true -> listdir p w = Raise e ->
         analyze_source p "folder" w = Raise e)
  /\ (forall pre g post e,
         path_exists p w = true -> listdir p w = Ok (pre ++ g :: post) ->
         (forall h, In h pre -> path_isfile (path_join p h) w = true ->
                    returns (path_getsize (path_join p h) w)) ->
         path_isfile (path_join p g) w = true ->
         path_getsize (path_join p g) w = Raise e ->
         analyze_source p "folder" w = Raise e)
  /\ (forall names g e,
         path_exists p w = true -> listdir p w = Ok names ->
         In g names -> path_isfile (path_join p g) w = true ->
         path_getsize (path_join p g) w = Raise e ->
         ~ returns (analyze_source p "folder" w))
  /\ (forall names, path_exists p w = true -> listdir p w = Ok names ->
         (forall g, In g names -> path_isfile (path_join p g) w = true ->
                    returns (path_getsize (path_join p g) w)) ->
         returns (analyze_source p "folder" w)).
Proof.
  split; [apply analyze_folder_missing|].
  split; [intros e; apply analyze_folder_listdir_raise|].
  split; [|split].
  - intros pre g post e Hex Hl Hpre Hg He.
    apply (analyze_folder_size_raise p w (pre ++ g :: post) e Hex Hl).
    exact (sum_sizes_first_failure p w pre g post e Hpre Hg He).
  - intros names g e Hex Hl Hin Hg He [d Hd].
    destruct (sum_sizes p w names) as [total|e'] eqn:Hs.
    + destruct (sum_sizes_returns_inv p w names
                  (ex_intro _ total Hs) g Hin Hg) as [n Hn].
      rewrite He in Hn. discriminate Hn.
    + rewrite (analyze_folder_size_raise p w names e' Hex Hl Hs) in Hd.
      discriminate Hd.
  - intros names Hex Hl Hsz.
    destruct (sum_sizes_returns p w names Hsz) as [total Hs].
    eexists. exact (analyze_folder_listed p w names total Hex Hl Hs).
Qed.

(** C3: for a folder source whose path does not exist, [analyze_source]
    returns (it does not raise) the dictionary it starts from, which reads
    as the defaults of the specification: singleFile=true,
    showConsole=false, debugMode=false, compress=false,
    stripDebugInfo=true, offlineMode=false, optimizationProfile=Balanced. *)
Theorem C3_missing_folder_defaults (p : string) (w : FS) :
  path_exists p w = false ->
  analyze_source p "folder" w = Ok recommendations0
  /\ recommendation_of recommendations0 = Some default_recommendation.
Proof.
  intros H. split; [exact (analyze_folder_missing p w H) | reflexivity].
Qed.

(** C4: for an existing folder whose listing has a name ending in [.map],
    [.ts], [.scss] or [.less], the analysis returns
    optimizationProfile=Production and stripDebugInfo=true, whatever the
    sizes of the files are. *)
Theorem C4_dev_artifacts_production
    (p : string) (w : FS) (names : list string) (f : string) :
  path_exists p w = true ->
  listdir p w = Ok names ->
  (forall g, In g names -> path_isfile (path_join p g) w = true ->
             returns (path_getsize (path_join p g) w)) ->
  In f names ->
  endswith_any f dev_suffixes = true ->
  exists d r,
    analyze_source p "folder" w = Ok d
    /\ recommendation_of d = Some r
    /\ optimizationProfile r = Production
    /\ stripDebugInfo r = true.
Proof.
  intros Hex Hl Hsz Hin Hdev.
  destruct (sum_sizes_returns p w names Hsz) as [total Hs].
  assert (Hd : existsb (fun g => endswith_any g dev_suffixes) names = true)
    by (apply existsb_exists; exists f; split; assumption).
  rewrite (analyze_folder_listed p w names total Hex Hl Hs), Hd.
  destruct (size_threshold <? total);
    eexists; eexists; (split; [reflexivity|]); (split; [reflexivity|]);
    split; reflexivity.
Qed.

(** C5, as amended: for an existing folder whose top-level regular files
    sum to more than 50 MiB and whose top-level listing has no name, of a
    file or of a directory, ending in [.map], [.ts], [.scss] or [.less],
    the analysis returns singleFile=false and optimizationProfile=Size. *)
Theorem C5_large_folder_size_profile
    (p : string) (w : FS) (names : list string) (size_of : string -> Z) :
  path_exists p w = true ->
  listdir p w = Ok names ->
  (forall g, In g names -> path_isfile (path_join p g) w = true ->
             path_getsize (path_join p g) w = Ok (size_of g)) ->
  50 * 1024 * 1024
    < top_level_size (fun g => path_isfile (path_join p g) w) size_of names ->
  (forall g, In g names -> endswith_any g dev_suffixes = false) ->
  exists d r,
    analyze_source p "folder" w = Ok d
    /\ recommendation_of d = Some r
    /\ singleFile r = false
    /\ optimizationProfile r = Size.
Proof.
  intros Hex Hl Hsz Hbig Hnodev.
  pose proof (sum_sizes_top_level p w size_of names Hsz) as Hs.
  rewrite (analyze_folder_listed p w names _ Hex Hl Hs).
  rewrite (existsb_false_Forall _ names Hnodev).
  replace (size_threshold <? _) with true
    by (symmetry; apply Z.ltb_lt; exact Hbig).
  eexists; eexists; (split; [reflexivity|]); (split; [reflexivity|]);
    split; reflexivity.
Qed.

(** No branch of the analysis sets [upx_compress]. *)
Lemma analyze_source_upx_false (p t : string) (w : FS) (d : gmap string PyVal) :
  analyze_source p t w = Ok d -> d !! "upx_compress" = Some (VBool false).
Proof.
  intros H. destruct (analyze_source_cases p t w d H) as [->|[big [dev ->]]];
    [reflexivity | destruct big, dev; reflexivity].
Qed.

End Analysis.

(** C1 (the code departs from the claim): [/site] holds [index.html] and a
    sibling script [app.js] whose first 1000 characters contain [http], yet
    the analysis returns a dictionary without [offline_mode], read as
    offlineMode=false.  The generator tests [f.endswith('.js')] on the
    names that passed [f.endswith('.html')]. *)
Theorem C1_cdn_script_not_detected :
  listdir (os := MemFS.linux) "/site" MemFS.site_cdn = Ok ["index.html"; "app.js"]
  /\ endswith "index.html" ".html" = true
  /\ endswith "app.js" ".js" = true
  /\ (exists txt,
        read_text (os := MemFS.linux) "/site/app.js" MemFS.site_cdn = Ok txt
        /\ str_in "http" (slice_to 1000 txt) = true)
  /\ exists d r,
        analyze_source (os := MemFS.linux) "/site" "folder" MemFS.site_cdn = Ok d
        /\ d !! "offline_mode" = None
        /\ recommendation_of d = Some r
        /\ offlineMode r = false.
Proof.
  split; [reflexivity|]. split; [reflexivity|]. split; [reflexivity|].
  split; [eexists; split; reflexivity|].
  exists recommendations0, default_recommendation.
  repeat split; vm_compute; reflexivity.
Qed.

(** C2 (counterexample): [/locked] exists but may not be listed; the
    [PermissionError] of [os.listdir] reaches the caller and no
    recommendation is returned. *)
Lemma C2_locked_folder_raises :
  path_exists (os := MemFS.linux) "/locked" MemFS.site_locked = true
  /\ analyze_source (os := MemFS.linux) "/locked" "folder" MemFS.site_locked
     = Raise PermissionError
  /\ ~ returns (analyze_source (os := MemFS.linux) "/locked" "folder" MemFS.site_locked).
Proof.
  split; [reflexivity|]. split; [reflexivity|].
  intros [d Hd]. vm_compute in Hd. discriminate Hd.
Qed.

Lemma C2_io_errors_propagate_witness :
  analyze_source (os := MemFS.linux) "/nope" "folder" MemFS.site_locked
    = Ok recommendations0
  /\ analyze_source (os := MemFS.linux) "/locked" "folder" MemFS.site_locked
     = Raise PermissionError
  /\ analyze_source (os := linux_size_error "/site/app.js" OSError)
       "/site" "folder" MemFS.site_cdn
     = Raise OSError
  /\ ~ returns (analyze_source (os := linux_size_error "/site/app.js" OSError)
                  "/site" "folder" MemFS.site_cdn)
  /\ returns (analyze_source (os := MemFS.linux) "/site" "folder" MemFS.site_cdn).
Proof.
  split; [|split; [|split; [|split]]].
  - exact (proj1 (C2_io_errors_propagate (os := MemFS.linux) "/nope" MemFS.site_locked)
             eq_refl).
  - exact (proj1 (proj2 (C2_io_errors_propagate (os := MemFS.linux)
                           "/locked" MemFS.site_locked))
             PermissionError eq_refl eq_refl).
  - refine (proj1 (proj2 (proj2 (C2_io_errors_propagate
                                   (os := linux_size_error "/site/app.js" OSError)
                                   "/site" MemFS.site_cdn)))
              ["index.html"] "app.js" [] OSError eq_refl eq_refl _ eq_refl eq_refl).
    intros h [<-|[]] _; eexists; reflexivity.
  - exact (proj1 (proj2 (proj2 (proj2 (C2_io_errors_propagate
                                         (os := linux_size_error "/site/app.js" OSError)
                                         "/site" MemFS.site_cdn))))
             ["index.html"; "app.js"] "app.js" OSError eq_refl eq_refl
             (or_intror (or_introl eq_refl)) eq_refl eq_refl).
  - refine (proj2 (proj2 (proj2 (proj2 (C2_io_errors_propagate (os := MemFS.linux)
                                          "/site" MemFS.site_cdn))))
              ["index.html"; "app.js"] eq_refl eq_refl _).
    intros g [<-|[<-|[]]] _; eexists; reflexivity.
Defined.

Lemma C3_missing_folder_defaults_witness :
  path_exists (os := MemFS.linux) "/nope" MemFS.site_locked = false
  /\ analyze_source (os := MemFS.linux) "/nope" "folder" MemFS.site_locked
     = Ok recommendations0
  /\ recommendation_of recommendations0 = Some default_recommendation.
Proof.
  split; [reflexivity|].
  exact (C3_missing_folder_defaults (os := MemFS.linux) "/nope" MemFS.site_locked eq_refl).
Defined.

Lemma C4_dev_artifacts_production_witness :
  exists d r,
    analyze_source (os := MemFS.linux) "/big_dev" "folder" MemFS.site_big_dev = Ok d
    /\ recommendation_of d = Some r
    /\ optimizationProfile r = Production
    /\ stripDebugInfo r = true.
Proof.
  refine (C4_dev_artifacts_production (os := MemFS.linux)
            "/big_dev" MemFS.site_big_dev ["video.bin"; "bundle.js.map"]
            "bundle.js.map" eq_refl eq_refl _ _ eq_refl).
  - intros g [<-|[<-|[]]] _; eexists; reflexivity.
  - right; left; reflexivity.
Defined.

(** C5 (counterexample): [/big_types] holds one regular file, of 60 MiB,
    and a sub-directory named [types.ts].  No regular file has a
    development suffix, yet the analysis returns Production, not Size:
    the suffix test runs over every listed name. *)
Lemma C5_dev_named_directory :
  path_exists (os := MemFS.linux) "/big_types" site_big_types = true
  /\ listdir (os := MemFS.linux) "/big_types" site_big_types
     = Ok ["video.bin"; "types.ts"]
  /\ (forall g, In g ["video.bin"; "types.ts"] ->
        path_isfile (os := MemFS.linux)
          (path_join (os := MemFS.linux) "/big_types" g) site_big_types = true ->
        path_getsize (os := MemFS.linux)
          (path_join (os := MemFS.linux) "/big_types" g) site_big_types
        = Ok (60 * 1024 * 1024)
        /\ endswith_any g dev_suffixes = false)
  /\ 50 * 1024 * 1024
     < top_level_size
         (fun g => path_isfile (os := MemFS.linux)
                     (path_join (os := MemFS.linux) "/big_types" g) site_big_types)
         (fun _ => 60 * 1024 * 1024) ["video.bin"; "types.ts"]
  /\ exists d r,
       analyze_source (os := MemFS.linux) "/big_types" "folder" site_big_types = Ok d
       /\ recommendation_of d = Some r
       /\ optimizationProfile r = Production
       /\ optimizationProfile r <> Size.
Proof.
  split; [reflexivity|]. split; [reflexivity|]. split; [|split].
  - intros g [<-|[<-|[]]] Hf; [split; reflexivity | discriminate Hf].
  - vm_compute. reflexivity.
  - exists (folder_dict true true). eexists.
    split; [vm_compute; reflexivity|].
    split; [vm_compute; reflexivity|].
    split; [reflexivity | discriminate].
Qed.

Lemma C5_large_folder_size_profile_witness :
  exists d r,
    analyze_source (os := MemFS.linux) "/big" "folder" MemFS.site_big = Ok d
    /\ recommendation_of d = Some r
    /\ singleFile r = false
    /\ optimizationProfile r = Size.
Proof.
  refine (C5_large_folder_size_profile (os := MemFS.linux)
            "/big" MemFS.site_big ["video.bin"] (fun _ => 60 * 1024 * 1024)
            eq_refl eq_refl _ _ _).
  - intros g [<-|[]] _; reflexivity.
  - vm_compute; reflexivity.
  - intros g [<-|[]]; reflexivity.
Defined.

(** C6: for a URL source the analysis returns one and the same dictionary,
    whatever the location string and the state of the system; it reads as
    singleFile=true, offlineMode=true, optimizationProfile=Portable. *)
Theorem C6_url_portable :
  exists d r,
    recommendation_of d = Some r
    /\ singleFile r = true
    /\ offlineMode r = true
    /\ optimizationProfile r = Portable
    /\ forall (FS : Type) (os : OS FS) (loc : string) (w : FS),
         analyze_source loc "url" w = Ok d.
Proof.
  exists url_dict. eexists.
  split; [reflexivity|]. split; [reflexivity|]. split; [reflexivity|].
  split; [reflexivity|]. intros FS os loc w. apply analyze_url.
Qed.

(** ** The option list *)

Lemma folder_dict_reads (big dev : bool) :
  getitem (folder_dict big dev) "onefile" = Ok (VBool (negb big))
  /\ getitem (folder_dict big dev) "strip_debug" = Ok (VBool true)
  /\ getitem (folder_dict big dev) "upx_compress" = Ok (VBool false)
  /\ recommendation_of (folder_dict big dev)
     = Some {| singleFile := negb big;
               showConsole := false;
               debugMode := false;
               compress := false;
               stripDebugInfo := true;
               offlineMode := false;
               optimizationProfile :=
                 if dev then Production else if big then Size else Balanced |}.
Proof. destruct big, dev; repeat split; reflexivity. Qed.

Lemma url_dict_reads :
  getitem url_dict "onefile" = Ok (VBool true)
  /\ getitem url_dict "strip_debug" = Ok (VBool true)
  /\ getitem url_dict "upx_compress" = Ok (VBool false)
  /\ recommendation_of url_dict
     = Some {| singleFile := true;
               showConsole := false;
               debugMode := false;
               compress := false;
               stripDebugInfo := true;
               offlineMode := true;
               optimizationProfile := Portable |}.
Proof. repeat split; reflexivity. Qed.

Section Planner.
Context {FS : Type} `{os : OS FS}.

(** What the analysis hands to the planner. *)
Lemma analysis_reads (p t : string) (w : FS) (d : gmap string PyVal) :
  analyze_source p t w = Ok d ->
  exists r,
    recommendation_of d = Some r
    /\ compress r = false
    /\ stripDebugInfo r = true
    /\ getitem d "onefile" = Ok (VBool (singleFile r))
    /\ getitem d "strip_debug" = Ok (VBool true)
    /\ getitem d "upx_compress" = Ok (VBool false).
Proof.
  intros H. destruct (analyze_source_cases p t w d H) as [->|[big [dev ->]]].
  - destruct url_dict_reads as (H1 & H2 & H3 & H4).
    eexists. split; [exact H4|]. repeat split; assumption.
  - destruct (folder_dict_reads big dev) as (H1 & H2 & H3 & H4).
    eexists. split; [exact H4|]. repeat split; assumption.
Qed.

(** When the analysis and the three [makedirs] succeed, the planner
    returns the options in the order of the specification. *)
Lemma options_shape (config : AppConfig) (w w1 w2 w3 : FS) (d : gmap string PyVal) :
  analyze_source (source_path (build config)) (source_type (build config)) w = Ok d ->
  makedirs (output_dir (build config)) w = Ok w1 ->
  makedirs (dist_path_of config) w1 = Ok w2 ->
  makedirs (work_path_of config) w2 = Ok w3 ->
  exists r,
    recommendation_of d = Some r
    /\ compress r = false
    /\ get_optimal_pyinstaller_options config w = Ok (spec_options config r w3, w3).
Proof.
  intros Ha H1 H2 H3.
  destruct (analysis_reads _ _ _ _ Ha) as (r & Hr & Hc & Hs & G1 & G2 & G3).
  exists r. split; [exact Hr|]. split; [exact Hc|].
  unfold get_optimal_pyinstaller_options.
  rewrite Ha. cbn [bind]. rewrite H1. cbn [bind].
  fold (dist_path_of config). rewrite H2. cbn [bind].
  fold (work_path_of config). rewrite H3. cbn [bind].
  rewrite G1, G2, G3. cbn [bind truthy].
  unfold spec_options, spec_directives, data_directive, icon_directive,
    data_separator, html_assets_of.
  rewrite Hc, Hs.
  destruct (singleFile r), (console (build config)),
    (String.eqb (source_type (build config)) "folder"),
    (String.eqb sys_platform "win32"),
    (negb (String.eqb (icon_path (build config)) "")
       && path_exists (icon_path (build config)) w3);
    reflexivity.
Qed.

(** Conversely, a returned option list comes from a successful analysis
    and has that shape. *)
Lemma options_inv (config : AppConfig) (w w' : FS) (opts : list string) :
  get_optimal_pyinstaller_options config w = Ok (opts, w') ->
  exists d r,
    analyze_source (source_path (build config)) (source_type (build config)) w = Ok d
    /\ recommendation_of d = Some r
    /\ compress r = false
    /\ opts = spec_options config r w'.
Proof.
  intros H.
  destruct (analyze_source (source_path (build config))
              (source_type (build config)) w) as [d|e] eqn:Ha;
    [|unfold get_optimal_pyinstaller_options in H; rewrite Ha in H; discriminate].
  destruct (makedirs (output_dir (build config)) w) as [w1|e] eqn:H1;
    [|unfold get_optimal_pyinstaller_options in H; rewrite Ha in H;
      cbn [bind] in H; rewrite H1 in H; discriminate].
  destruct (makedirs (dist_path_of config) w1) as [w2|e] eqn:H2;
    [|unfold get_optimal_pyinstaller_options in H; rewrite Ha in H;
      cbn [bind] in H; rewrite H1 in H; cbn [bind] in H;
      fold (dist_path_of config) in H; rewrite H2 in H; discriminate].
  destruct (makedirs (work_path_of config) w2) as [w3|e] eqn:H3;
    [|unfold get_optimal_pyinstaller_options in H; rewrite Ha in H;
      cbn [bind] in H; rewrite H1 in H; cbn [bind] in H;
      fold (dist_path_of config) in H; rewrite H2 in H; cbn [bind] in H;
      fold (work_path_of config) in H; rewrite H3 in H; discriminate].
  destruct (options_shape config w w1 w2 w3 d Ha H1 H2 H3) as (r & Hr & Hc & Hg).
  rewrite Hg in H. injection H as <- <-.
  exists d, r. repeat split; assumption.
Qed.

(** The directives of each class in a list of that shape. *)
Lemma spec_options_packaging (config : AppConfig) (r : Recommendation) (w : FS) :
  List.filter is_packaging_mode (spec_options config r w)
  = [if singleFile r then "--onefile" else "--onedir"].
Proof.
  unfold spec_options, spec_directives, data_directive, icon_directive.
  destruct (singleFile r), (console (build config)), (compress r),
    (stripDebugInfo r), (String.eqb (source_type (build config)) "folder"),
    (negb (String.eqb (icon_path (build config)) "")
       && path_exists (icon_path (build config)) w);
    reflexivity.
Qed.

Lemma spec_options_data (config : AppConfig) (r : Recommendation) (w : FS) :
  List.filter is_data_inclusion (spec_options config r w)
  = option_list (data_directive config).
Proof.
  unfold spec_options, spec_directives, data_directive, icon_directive.
  destruct (singleFile r), (console (build config)), (compress r),
    (stripDebugInfo r), (String.eqb (source_type (build config)) "folder"),
    (negb (String.eqb (icon_path (build config)) "")
       && path_exists (icon_path (build config)) w);
    reflexivity.
Qed.

Lemma spec_options_compression (config : AppConfig) (r : Recommendation) (w : FS) :
  List.filter is_compression (spec_options config r w)
  = if compress r then ["--upx-dir=upx"] else [].
Proof.
  unfold spec_options, spec_directives, data_directive, icon_directive.
  destruct (singleFile r), (console (build config)), (compress r),
    (stripDebugInfo r), (String.eqb (source_type (build config)) "folder"),
    (negb (String.eqb (icon_path (build config)) "")
       && path_exists (icon_path (build config)) w);
    reflexivity.
Qed.

(** C7: when the analysis and the creation of the output directories
    succeed, the planner returns, after [--noconfirm] and [--clean], the
    directives in the order (a) name, (b) distribution path, work path,
    (c) packaging mode, (d) windowed unless the console flag is set,
    (e) compression if compress, (f) strip if stripDebugInfo, (g) data
    inclusion for a folder source, (h) the hidden imports, (i) the icon if
    its path is set and exists; and the command of the build engine is the
    interpreter call, these options, then the entry-point path, last. *)
Theorem C7_directive_order
    (config : AppConfig) (main_script_path : string) (w w1 w2 w3 : FS)
    (d : gmap string PyVal) :
  analyze_source (source_path (build config)) (source_type (build config)) w = Ok d ->
  makedirs (output_dir (build config)) w = Ok w1 ->
  makedirs (dist_path_of config) w1 = Ok w2 ->
  makedirs (work_path_of config) w2 = Ok w3 ->
  exists r cmd,
    recommendation_of d = Some r
    /\ get_optimal_pyinstaller_options config w
       = Ok ("--noconfirm" :: "--clean" ::
             spec_directives (name (metadata config)) (dist_path_of config)
               (work_path_of config) r (console (build config))
               (data_directive config) (icon_directive config w3), w3)
    /\ BuildEngine._build_pyinstaller_command config main_script_path w = Ok (cmd, w3)
    /\ cmd = [sys_executable; "-m"; "PyInstaller"]
             ++ spec_options config r w3 ++ [main_script_path]
    /\ last cmd = Some main_script_path.
Proof.
  intros Ha H1 H2 H3.
  destruct (options_shape config w w1 w2 w3 d Ha H1 H2 H3) as (r & Hr & _ & Hg).
  exists r. eexists. split; [exact Hr|]. split; [exact Hg|].
  unfold BuildEngine._build_pyinstaller_command. rewrite Hg. cbn [bind].
  split; [reflexivity|]. split; [rewrite <- app_assoc; reflexivity|].
  apply last_snoc.
Qed.

(** C8: a returned option list holds a data-inclusion directive if and
    only if the source type is [folder]; the only such directive is
    [--add-data=<assets><sep>html_assets], where [<sep>] is [;] when
    [sys.platform] is [win32] and [:] otherwise. *)
Theorem C8_data_inclusion_iff_folder
    (config : AppConfig) (w w' : FS) (opts : list string) :
  get_optimal_pyinstaller_options config w = Ok (opts, w') ->
  (existsb is_data_inclusion opts = true <-> source_type (build config) = "folder")
  /\ (forall o, In o opts -> is_data_inclusion o = true ->
        o = "--add-data=" +:+ html_assets_of config
            +:+ (if String.eqb sys_platform "win32" then ";" else ":")
            +:+ "html_assets").
Proof.
  intros H. destruct (options_inv config w w' opts H) as (d & r & _ & _ & _ & ->).
  pose proof (spec_options_data config r w') as Hf.
  split.
  - rewrite <- String.eqb_eq. unfold data_directive in Hf.
    destruct (String.eqb (source_type (build config)) "folder").
    + split; [reflexivity|]. intros _. apply existsb_exists.
      eexists. rewrite <- filter_In, Hf. left. reflexivity.
    + split; [|discriminate]. intros He. apply existsb_exists in He.
      destruct He as (o & Ho). rewrite <- filter_In, Hf in Ho. destruct Ho.
  - intros o Hin Ho.
    assert (Hm : In o (List.filter is_data_inclusion (spec_options config r w')))
      by (apply filter_In; split; assumption).
    rewrite Hf in Hm. unfold data_directive, data_separator in Hm.
    destruct (String.eqb (source_type (build config)) "folder");
      [destruct Hm as [<-|[]]; reflexivity | destruct Hm].
Qed.

(** C9: a returned option list holds exactly one packaging-mode directive,
    [--onefile] or [--onedir], never both. *)
Theorem C9_one_packaging_mode
    (config : AppConfig) (w w' : FS) (opts : list string) :
  get_optimal_pyinstaller_options config w = Ok (opts, w') ->
  length (List.filter is_packaging_mode opts) = 1%nat
  /\ (In "--onefile" opts \/ In "--onedir" opts)
  /\ ~ (In "--onefile" opts /\ In "--onedir" opts).
Proof.
  intros H. destruct (options_inv config w w' opts H) as (d & r & _ & _ & _ & ->).
  pose proof (spec_options_packaging config r w') as Hf.
  assert (Hin : forall o, is_packaging_mode o = true ->
            In o (spec_options config r w') ->
            o = if singleFile r then "--onefile" else "--onedir").
  { intros o Ho Hi.
    assert (Hm : In o (List.filter is_packaging_mode (spec_options config r w')))
      by (apply filter_In; split; assumption).
    rewrite Hf in Hm. destruct Hm as [<-|[]]. reflexivity. }
  split; [rewrite Hf; reflexivity|]. split.
  - assert (Hm : In (if singleFile r then "--onefile" else "--onedir")
                    (List.filter is_packaging_mode (spec_options config r w')))
      by (rewrite Hf; left; reflexivity).
    apply filter_In in Hm as [Hm _].
    destruct (singleFile r); [left | right]; exact Hm.
  - intros [Ha Hb].
    pose proof (Hin "--onefile" eq_refl Ha) as E1.
    pose proof (Hin "--onedir" eq_refl Hb) as E2.
    destruct (singleFile r); discriminate.
Qed.

(** C10: whatever the source, the dictionary returned by the analysis has
    [upx_compress] false, read as compress=false; and a returned option
    list holds no compression directive. *)
Theorem C10_never_compresses :
  (forall (p t : string) (w : FS) (d : gmap string PyVal),
     analyze_source p t w = Ok d ->
     d !! "upx_compress" = Some (VBool false)
     /\ exists r, recommendation_of d = Some r /\ compress r = false)
  /\ (forall (config : AppConfig) (w w' : FS) (opts : list string),
        get_optimal_pyinstaller_options config w = Ok (opts, w') ->
        forall o, In o opts -> is_compression o = false).
Proof.
  split.
  - intros p t w d H. split; [exact (analyze_source_upx_false p t w d H)|].
    destruct (analysis_reads p t w d H) as (r & Hr & Hc & _).
    exists r. split; assumption.
  - intros config w w' opts H o Hin.
    destruct (options_inv config w w' opts H) as (d & r & _ & _ & Hc & ->).
    pose proof (spec_options_compression config r w') as Hf.
    rewrite Hc in Hf.
    destruct (is_compression o) eqn:Ho; [|reflexivity].
    assert (Hm : In o (List.filter is_compression (spec_options config r w')))
      by (apply filter_In; split; assumption).
    rewrite Hf in Hm. destruct Hm.
Qed.

End Planner.

(** ** The option list on concrete builds *)

Lemma site_options_linux :
  get_optimal_pyinstaller_options (os := MemFS.linux) site_config MemFS.site_cdn
  = Ok (site_options "/" ":", MemFS.with_output_dirs "/" MemFS.site_cdn).
Proof. vm_compute. reflexivity. Qed.

Lemma site_options_win32 :
  get_optimal_pyinstaller_options (os := MemFS.win32) site_config MemFS.site_cdn
  = Ok (site_options "\" ";", MemFS.with_output_dirs "\" MemFS.site_cdn).
Proof. vm_compute. reflexivity. Qed.

Lemma url_options_linux :
  get_optimal_pyinstaller_options (os := MemFS.linux) url_config MemFS.site_cdn
  = Ok ("--noconfirm" :: "--clean" :: "--name=MyHTMLApp" :: "--distpath=out/dist"
        :: "--workpath=out/build/work" :: "--onefile" :: "--strip"
        :: map (fun imp => "--hidden-import=" +:+ imp) hidden_imports,
        MemFS.with_output_dirs "/" MemFS.site_cdn).
Proof. vm_compute. reflexivity. Qed.

Lemma C7_directive_order_witness :
  exists cmd,
    BuildEngine._build_pyinstaller_command (os := MemFS.linux)
      site_config "out/build/main.py" MemFS.site_cdn
    = Ok (cmd, MemFS.with_output_dirs "/" MemFS.site_cdn)
    /\ cmd = ["/usr/bin/python3"; "-m"; "PyInstaller"]
             ++ site_options "/" ":" ++ ["out/build/main.py"]
    /\ last cmd = Some "out/build/main.py".
Proof.
  destruct (C7_directive_order (os := MemFS.linux) site_config "out/build/main.py"
              MemFS.site_cdn
              (("out", MemFS.Directory [] true) :: MemFS.site_cdn)
              (("out/dist", MemFS.Directory [] true)
                 :: ("out", MemFS.Directory ["dist"] true) :: MemFS.site_cdn)
              (MemFS.with_output_dirs "/" MemFS.site_cdn)
              recommendations0)
    as (r & cmd & Hr & _ & Hcmd & Heq & Hlast);
    [vm_compute; reflexivity .. |].
  exists cmd. split; [exact Hcmd|]. split; [|exact Hlast].
  vm_compute in Hr. injection Hr as <-. rewrite Heq. reflexivity.
Defined.

Lemma C8_data_inclusion_iff_folder_witness :
  (existsb is_data_inclusion (site_options "\" ";") = true
   <-> source_type (build site_config) = "folder")
  /\ (forall o, In o (site_options "\" ";") -> is_data_inclusion o = true ->
        o = "--add-data=out\build\html_assets;html_assets").
Proof.
  exact (C8_data_inclusion_iff_folder (os := MemFS.win32) site_config
           MemFS.site_cdn _ _ site_options_win32).
Defined.

Lemma C9_one_packaging_mode_witness :
  exists opts w',
    get_optimal_pyinstaller_options (os := MemFS.linux) url_config MemFS.site_cdn
      = Ok (opts, w')
    /\ length (List.filter is_packaging_mode opts) = 1%nat
    /\ (In "--onefile" opts \/ In "--onedir" opts)
    /\ ~ (In "--onefile" opts /\ In "--onedir" opts).
Proof.
  eexists. eexists. split; [exact url_options_linux|].
  exact (C9_one_packaging_mode (os := MemFS.linux) url_config
           MemFS.site_cdn _ _ url_options_linux).
Defined.

Lemma C10_never_compresses_witness :
  (exists d,
     analyze_source (os := MemFS.linux) "/big" "folder" MemFS.site_big = Ok d
     /\ d !! "upx_compress" = Some (VBool false))
  /\ (forall o, In o (site_options "/" ":") -> is_compression o = false).
Proof.
  split.
  - assert (H : analyze_source (os := MemFS.linux) "/big" "folder" MemFS.site_big
                 = Ok (folder_dict true false))
      by (vm_compute; reflexivity).
    exists (folder_dict true false). split; [exact H|].
    exact (proj1 (proj1 (C10_never_compresses (os := MemFS.linux))
                    "/big" "folder" MemFS.site_big (folder_dict true false) H)).
  - exact (proj2 (C10_never_compresses (os := MemFS.linux)) site_config
             MemFS.site_cdn _ _ site_options_linux).
Defined.

(** * Further properties of the code *)

(** ** The analysis *)

Section AnalysisMore.
Context {FS : Type} `{os : OS FS}.

(** What the analysis of an existing folder computes, in terms of the
    listing and of the sizes only. *)
Lemma analyze_folder_existing (p : string) (w : FS) :
  path_exists p w = true ->
  analyze_source p "folder" w
  = let* names := listdir p w in
    let* total := sum_sizes p w names in
    Ok (folder_dict (size_threshold <? total)
                    (existsb (fun f => endswith_any f dev_suffixes) names)).
Proof.
  intros Hex.
  destruct (listdir p w) as [names|e] eqn:Hl; cbn [bind].
  - destruct (sum_sizes p w names) as [total|e] eqn:Hs; cbn [bind].
    + exact (analyze_folder_listed p w names total Hex Hl Hs).
    + exact (analyze_folder_size_raise p w names e Hex Hl Hs).
  - exact (analyze_folder_listdir_raise p w e Hex Hl).
Qed.

(** X1: a source type that is neither [folder] nor [url] is not rejected:
    the defaults are returned and the file system is not consulted. *)
Theorem X1_unknown_type_defaults (p t : string) (w : FS) :
  t <> "folder" -> t <> "url" ->
  analyze_source p t w = Ok recommendations0
  /\ recommendation_of recommendations0 = Some default_recommendation.
Proof.
  intros Hf Hu. split; [|reflexivity].
  unfold analyze_source.
  apply String.eqb_neq in Hf. apply String.eqb_neq in Hu.
  rewrite Hf, Hu. reflexivity.
Qed.

(** X2: the size test is strict.  A folder whose top-level regular files
    sum to at most 50 MiB (exactly 50 MiB included) and whose listing has
    no development suffix is analysed to the defaults. *)
Theorem X2_threshold_is_strict
    (p : string) (w : FS) (names : list string) (size_of : string -> Z) :
  path_exists p w = true ->
  listdir p w = Ok names ->
  (forall g, In g names -> path_isfile (path_join p g) w = true ->
             path_getsize (path_join p g) w = Ok (size_of g)) ->
  top_level_size (fun g => path_isfile (path_join p g) w) size_of names
    <= 50 * 1024 * 1024 ->
  (forall g, In g names -> endswith_any g dev_suffixes = false) ->
  analyze_source p "folder" w = Ok recommendations0.
Proof.
  intros Hex Hl Hsz Hsmall Hnodev.
  pose proof (sum_sizes_top_level p w size_of names Hsz) as Hs.
  rewrite (analyze_folder_listed p w names _ Hex Hl Hs).
  rewrite (existsb_false_Forall _ names Hnodev).
  replace (size_threshold <? _) with false
    by (symmetry; apply Z.ltb_ge; exact Hsmall).
  reflexivity.
Qed.

(** X3: when a folder is both larger than 50 MiB and holds a development
    artefact, the two updates combine: the profile is Production, yet
    singleFile stays false, as the size update left it. *)
Theorem X3_large_folder_with_dev_artifacts
    (p : string) (w : FS) (names : list string) (size_of : string -> Z) (f : string) :
  path_exists p w = true ->
  listdir p w = Ok names ->
  (forall g, In g names -> path_isfile (path_join p g) w = true ->
             path_getsize (path_join p g) w = Ok (size_of g)) ->
  50 * 1024 * 1024
    < top_level_size (fun g => path_isfile (path_join p g) w) size_of names ->
  In f names ->
  endswith_any f dev_suffixes = true ->
  exists d r,
    analyze_source p "folder" w = Ok d
    /\ recommendation_of d = Some r
    /\ singleFile r = false
    /\ optimizationProfile r = Production
    /\ offlineMode r = false.
Proof.
  intros Hex Hl Hsz Hbig Hin Hdev.
  pose proof (sum_sizes_top_level p w size_of names Hsz) as Hs.
  assert (Hd : existsb (fun g => endswith_any g dev_suffixes) names = true)
    by (apply existsb_exists; exists f; split; assumption).
  rewrite (analyze_folder_listed p w names _ Hex Hl Hs), Hd.
  replace (size_threshold <? _) with true
    by (symmetry; apply Z.ltb_lt; exact Hbig).
  exists (folder_dict true true). eexists.
  split; [reflexivity|].
  split; [exact (proj2 (proj2 (proj2 (folder_dict_reads true true))))|].
  repeat split.
Qed.

(** X5: every recommendation the analysis returns, for any source, says
    no console, no debug mode and strip the debug information. *)
Theorem X5_fixed_flags (p t : string) (w : FS) (d : gmap string PyVal) :
  analyze_source p t w = Ok d ->
  exists r,
    recommendation_of d = Some r
    /\ showConsole r = false
    /\ debugMode r = false
    /\ stripDebugInfo r = true.
Proof.
  intros H. destruct (analyze_source_cases p t w d H) as [->|[big [dev ->]]].
  - eexists. split; [exact (proj2 (proj2 (proj2 url_dict_reads)))|]. repeat split.
  - eexists.
    split; [exact (proj2 (proj2 (proj2 (folder_dict_reads big dev))))|].
    repeat split.
Qed.

(** X6: in every recommendation returned the profile and the flags agree:
    offlineMode is set exactly for the Portable profile, Portable and
    Balanced come with singleFile, Size comes without it, and singleFile
    is false only under Size or Production. *)
Theorem X6_profile_flag_consistency (p t : string) (w : FS) (d : gmap string PyVal) :
  analyze_source p t w = Ok d ->
  exists r,
    recommendation_of d = Some r
    /\ (offlineMode r = true <-> optimizationProfile r = Portable)
    /\ (optimizationProfile r = Portable -> singleFile r = true)
    /\ (optimizationProfile r = Balanced -> singleFile r = true)
    /\ (optimizationProfile r = Size -> singleFile r = false)
    /\ (singleFile r = false ->
        optimizationProfile r = Size \/ optimizationProfile r = Production).
Proof.
  intros H. destruct (analyze_source_cases p t w d H) as [->|[big [dev ->]]].
  - eexists. split; [exact (proj2 (proj2 (proj2 url_dict_reads)))|].
    cbn. repeat split; try discriminate; auto.
  - eexists.
    split; [exact (proj2 (proj2 (proj2 (folder_dict_reads big dev))))|].
    destruct big, dev; cbn; repeat split; try discriminate; auto.
Qed.

(** X7: the analysis of a source given on the command line.  A source
    that starts with [http://] or [https://] is analysed as a URL, to one
    fixed dictionary; any other source is analysed as a folder, and is
    never recorded as needing offline mode. *)
Theorem X7_command_line_source (src : string) (w : FS) :
  (detect_source_type src = "url" \/ detect_source_type src = "folder")
  /\ (startswith src "http://" = true \/ startswith src "https://" = true ->
      analyze_source src (detect_source_type src) w = Ok url_dict)
  /\ (startswith src "http://" = false -> startswith src "https://" = false ->
      analyze_source src (detect_source_type src) w = analyze_source src "folder" w
      /\ forall d, analyze_source src (detect_source_type src) w = Ok d ->
                   d !! "offline_mode" = None).
Proof.
  unfold detect_source_type.
  destruct (startswith src "http://") eqn:H1;
    destruct (startswith src "https://") eqn:H2; cbn [orb].
  all: split; [auto|]; split; try (intros; discriminate).
  all: try (intros _; apply analyze_url).
  - intros [?|?]; discriminate.
  - intros _ _. split; [reflexivity|]. apply analyze_folder_offline_absent.
Qed.

End AnalysisMore.

(** X4: the analysis never reads a file.  Replacing the file reader by any
    other one, failing or not, changes no result. *)
Theorem X4_analysis_reads_no_file
    {FS : Type} (os : OS FS) (reader : string -> FS -> result string)
    (p t : string) (w : FS) :
  analyze_source (os := with_read_text os reader) p t w
  = analyze_source (os := os) p t w.
Proof.
  destruct (String.eqb t "folder") eqn:Ht.
  - apply String.eqb_eq in Ht. subst t.
    destruct (path_exists (os := os) p w) eqn:Hex.
    + rewrite (analyze_folder_existing (os := os) p w Hex).
      rewrite (analyze_folder_existing (os := with_read_text os reader) p w Hex).
      cbn [listdir with_read_text].
      destruct (listdir (os := os) p w) as [names|e]; [|reflexivity].
      cbn [bind].
      replace (sum_sizes (os := with_read_text os reader) p w names)
        with (sum_sizes (os := os) p w names); [reflexivity|].
      induction names as [|f rest IH]; [reflexivity|].
      cbn [sum_sizes]. rewrite IH. reflexivity.
    + rewrite (analyze_folder_missing (os := os) p w Hex).
      exact (analyze_folder_missing (os := with_read_text os reader) p w Hex).
  - unfold analyze_source. rewrite Ht. destruct (String.eqb t "url"); reflexivity.
Qed.

Lemma X4_analysis_reads_no_file_witness :
  analyze_source
    (os := with_read_text MemFS.linux (fun _ _ => Raise PermissionError))
    "/site" "folder" MemFS.site_cdn
  = analyze_source (os := MemFS.linux) "/site" "folder" MemFS.site_cdn.
Proof.
  exact (X4_analysis_reads_no_file MemFS.linux (fun _ _ => Raise PermissionError)
           "/site" "folder" MemFS.site_cdn).
Defined.

Lemma X2_threshold_is_strict_witness :
  analyze_source (os := MemFS.linux) "/exact" "folder" site_exact
  = Ok recommendations0.
Proof.
  refine (X2_threshold_is_strict (os := MemFS.linux)
            "/exact" site_exact ["data.bin"] (fun _ => 50 * 1024 * 1024)
            eq_refl eq_refl _ _ _).
  - intros g [<-|[]] _; reflexivity.
  - vm_compute; discriminate.
  - intros g [<-|[]]; reflexivity.
Defined.

Lemma X1_unknown_type_defaults_witness :
  analyze_source (os := MemFS.linux) "/site" "file" MemFS.site_cdn
    = Ok recommendations0
  /\ recommendation_of recommendations0 = Some default_recommendation.
Proof.
  apply (X1_unknown_type_defaults (os := MemFS.linux) "/site" "file" MemFS.site_cdn);
    discriminate.
Defined.

Lemma X3_large_folder_with_dev_artifacts_witness :
  exists d r,
    analyze_source (os := MemFS.linux) "/big_dev" "folder" MemFS.site_big_dev = Ok d
    /\ recommendation_of d = Some r
    /\ singleFile r = false
    /\ optimizationProfile r = Production
    /\ offlineMode r = false.
Proof.
  refine (X3_large_folder_with_dev_artifacts (os := MemFS.linux)
            "/big_dev" MemFS.site_big_dev ["video.bin"; "bundle.js.map"]
            (fun g => if String.eqb g "video.bin" then 60 * 1024 * 1024 else 2048)
            "bundle.js.map" eq_refl eq_refl _ _ _ eq_refl).
  - intros g [<-|[<-|[]]] _; reflexivity.
  - vm_compute; reflexivity.
  - right; left; reflexivity.
Defined.

Lemma X5_fixed_flags_witness :
  exists r,
    recommendation_of (folder_dict true false) = Some r
    /\ showConsole r = false
    /\ debugMode r = false
    /\ stripDebugInfo r = true.
Proof.
  refine (X5_fixed_flags (os := MemFS.linux) "/big" "folder" MemFS.site_big
            (folder_dict true false) _).
  vm_compute; reflexivity.
Defined.

Lemma X6_profile_flag_consistency_witness :
  exists r,
    recommendation_of url_dict = Some r
    /\ (offlineMode r = true <-> optimizationProfile r = Portable)
    /\ (optimizationProfile r = Portable -> singleFile r = true)
    /\ (optimizationProfile r = Balanced -> singleFile r = true)
    /\ (optimizationProfile r = Size -> singleFile r = false)
    /\ (singleFile r = false ->
        optimizationProfile r = Size \/ optimizationProfile r = Production).
Proof.
  exact (X6_profile_flag_consistency (os := MemFS.linux)
           "https://example.com" "url" MemFS.site_cdn url_dict eq_refl).
Defined.

Lemma X7_command_line_source_witness :
  analyze_source (os := MemFS.linux) "https://example.com"
    (detect_source_type "https://example.com") MemFS.site_cdn = Ok url_dict
  /\ forall d,
       analyze_source (os := MemFS.linux) "/site" (detect_source_type "/site")
         MemFS.site_cdn = Ok d ->
       d !! "offline_mode" = None.
Proof.
  split.
  - exact (proj1 (proj2 (X7_command_line_source (os := MemFS.linux)
                           "https://example.com" MemFS.site_cdn))
             (or_intror eq_refl)).
  - exact (proj2 (proj2 (proj2 (X7_command_line_source (os := MemFS.linux)
                                  "/site" MemFS.site_cdn))
                    eq_refl eq_refl)).
Defined.

(** ** The option list *)

Section PlannerMore.
Context {FS : Type} `{os : OS FS}.

(** A returned option list, with what is known of the recommendation
    behind it. *)
Lemma options_inv_flags (config : AppConfig) (w w' : FS) (opts : list string) :
  get_optimal_pyinstaller_options config w = Ok (opts, w') ->
  exists r,
    compress r = false
    /\ stripDebugInfo r = true
    /\ opts = spec_options config r w'.
Proof.
  intros H. destruct (options_inv config w w' opts H) as (d & r & Ha & Hr & Hc & ->).
  destruct (analysis_reads _ _ _ _ Ha) as (r' & Hr' & _ & Hs & _).
  rewrite Hr in Hr'. injection Hr' as <-.
  exists r. repeat split; assumption.
Qed.

Lemma spec_options_strip (config : AppConfig) (r : Recommendation) (w : FS) :
  compress r = false ->
  List.filter (String.eqb "--strip") (spec_options config r w)
  = if stripDebugInfo r then ["--strip"] else [].
Proof.
  intros Hc.
  unfold spec_options, spec_directives, data_directive, icon_directive. rewrite Hc.
  destruct (singleFile r), (console (build config)),
    (stripDebugInfo r), (String.eqb (source_type (build config)) "folder"),
    (negb (String.eqb (icon_path (build config)) "")
       && path_exists (icon_path (build config)) w);
    reflexivity.
Qed.

Lemma spec_options_windowed (config : AppConfig) (r : Recommendation) (w : FS) :
  compress r = false ->
  List.filter (String.eqb "--windowed") (spec_options config r w)
  = if console (build config) then [] else ["--windowed"].
Proof.
  intros Hc.
  unfold spec_options, spec_directives, data_directive, icon_directive. rewrite Hc.
  destruct (singleFile r), (console (build config)),
    (stripDebugInfo r), (String.eqb (source_type (build config)) "folder"),
    (negb (String.eqb (icon_path (build config)) "")
       && path_exists (icon_path (build config)) w);
    reflexivity.
Qed.

Lemma spec_options_nodup (config : AppConfig) (r : Recommendation) (w : FS) :
  compress r = false -> stripDebugInfo r = true ->
  List.NoDup (spec_options config r w).
Proof.
  intros Hc Hs.
  unfold spec_options, spec_directives, data_directive, icon_directive.
  rewrite Hc, Hs.
  destruct (singleFile r), (console (build config)),
    (String.eqb (source_type (build config)) "folder"),
    (negb (String.eqb (icon_path (build config)) "")
       && path_exists (icon_path (build config)) w).
  all: simpl.
  all: repeat (apply List.NoDup_cons; [simpl; intuition discriminate|]).
  all: apply List.NoDup_nil.
Qed.

Lemma in_filter_eqb (x : string) (l : list string) :
  In x l <-> In x (List.filter (String.eqb x) l).
Proof.
  rewrite filter_In. split; [|tauto].
  intros H. split; [exact H | apply String.eqb_refl].
Qed.

(** X8: the planner takes from the configuration the name, the source
    type and path, the output directory, the console flag and the icon
    path only.  Two configurations that agree on these get the same
    result, whatever their [onefile], [upx_compress], [strip_debug],
    [debug] and [offline_mode] are. *)
Theorem X8_planner_ignores_build_flags (c1 c2 : AppConfig) (w : FS) :
  name (metadata c1) = name (metadata c2) ->
  source_type (build c1) = source_type (build c2) ->
  source_path (build c1) = source_path (build c2) ->
  output_dir (build c1) = output_dir (build c2) ->
  console (build c1) = console (build c2) ->
  icon_path (build c1) = icon_path (build c2) ->
  get_optimal_pyinstaller_options c1 w = get_optimal_pyinstaller_options c2 w.
Proof.
  destruct c1 as [m1 b1], c2 as [m2 b2]. destruct m1, m2, b1, b2.
  cbn. intros; subst. reflexivity.
Qed.

(** X9: every returned option list holds [--strip], even for a
    configuration with [strip_debug] off or [debug] on, and holds
    [--windowed] exactly when the console flag of the configuration is
    off. *)
Theorem X9_strip_always_windowed_by_console
    (config : AppConfig) (w w' : FS) (opts : list string) :
  get_optimal_pyinstaller_options config w = Ok (opts, w') ->
  In "--strip" opts
  /\ (In "--windowed" opts <-> console (build config) = false).
Proof.
  intros H. destruct (options_inv_flags config w w' opts H) as (r & Hc & Hs & ->).
  split.
  - rewrite in_filter_eqb, (spec_options_strip config r w' Hc), Hs.
    left. reflexivity.
  - rewrite in_filter_eqb, (spec_options_windowed config r w' Hc).
    destruct (console (build config)); split; intros Hx.
    + destruct Hx.
    + discriminate Hx.
    + reflexivity.
    + left. reflexivity.
Qed.

(** X10: the planner handles no exception.  An error of the analysis, or
    of the creation of the output directory, of the distribution
    directory or of the work directory, is raised to the caller, also
    through [_build_pyinstaller_command], and no option list is
    returned. *)
Theorem X10_planner_failures
    (config : AppConfig) (main_script_path : string) (w : FS) (e : exn) :
  let analysis :=
    analyze_source (source_path (build config)) (source_type (build config)) w in
  (analysis = Raise e
   \/ (returns analysis /\ makedirs (output_dir (build config)) w = Raise e)
   \/ (returns analysis /\ exists w1,
         makedirs (output_dir (build config)) w = Ok w1
         /\ makedirs (dist_path_of config) w1 = Raise e)
   \/ (returns analysis /\ exists w1 w2,
         makedirs (output_dir (build config)) w = Ok w1
         /\ makedirs (dist_path_of config) w1 = Ok w2
         /\ makedirs (work_path_of config) w2 = Raise e)) ->
  get_optimal_pyinstaller_options config w = Raise e
  /\ BuildEngine._build_pyinstaller_command config main_script_path w = Raise e.
Proof.
  intros analysis H.
  assert (Hg : get_optimal_pyinstaller_options config w = Raise e).
  { unfold get_optimal_pyinstaller_options. fold analysis.
    destruct H as [Ha | [[[d Ha] H1] | [[[d Ha] (w1 & H1 & H2)]
                  | [[d Ha] (w1 & w2 & H1 & H2 & H3)]]]];
      rewrite Ha; cbn [bind]; [reflexivity| | |].
    - rewrite H1. reflexivity.
    - rewrite H1. cbn [bind]. fold (dist_path_of config). rewrite H2. reflexivity.
    - rewrite H1. cbn [bind]. fold (dist_path_of config). rewrite H2. cbn [bind].
      fold (work_path_of config). rewrite H3. reflexivity. }
  split; [exact Hg|].
  unfold BuildEngine._build_pyinstaller_command. rewrite Hg. reflexivity.
Qed.

(** X11: a returned option list has no duplicate, whatever the name, the
    paths and the icon path are. *)
Theorem X11_options_without_duplicates
    (config : AppConfig) (w w' : FS) (opts : list string) :
  get_optimal_pyinstaller_options config w = Ok (opts, w') ->
  List.NoDup opts.
Proof.
  intros H. destruct (options_inv_flags config w w' opts H) as (r & Hc & Hs & ->).
  exact (spec_options_nodup config r w' Hc Hs).
Qed.

(** X12: the packaging mode given to PyInstaller and the place where the
    engine looks for the executable are decided separately: the first by
    the analysis, the second by [config.build.onefile].  For a URL source
    configured with [onefile] off, the options hold [--onefile] and not
    [--onedir], while [_get_exe_path] is the path of a directory build. *)
Theorem X12_exe_path_can_disagree
    (config : AppConfig) (w w' : FS) (opts : list string) :
  source_type (build config) = "url" ->
  onefile (build config) = false ->
  get_optimal_pyinstaller_options config w = Ok (opts, w') ->
  In "--onefile" opts
  /\ ~ In "--onedir" opts
  /\ Engine._get_exe_path config
     = path_join (path_join (Engine.dist_dir config) (name (metadata config)))
         (name (metadata config) +:+ ".exe")
  /\ In ("--distpath=" +:+ Engine.dist_dir config) opts.
Proof.
  intros Hu Ho H.
  destruct (options_inv config w w' opts H) as (d & r & Ha & Hr & _ & ->).
  rewrite Hu, analyze_url in Ha. injection Ha as <-.
  rewrite (proj2 (proj2 (proj2 url_dict_reads))) in Hr. injection Hr as <-.
  pose proof (spec_options_packaging config
                {| singleFile := true; showConsole := false; debugMode := false;
                   compress := false; stripDebugInfo := true; offlineMode := true;
                   optimizationProfile := Portable |} w') as Hf.
  cbn [singleFile] in Hf.
  assert (Hin : forall o, is_packaging_mode o = true ->
            (In o (spec_options config
                     {| singleFile := true; showConsole := false; debugMode := false;
                        compress := false; stripDebugInfo := true; offlineMode := true;
                        optimizationProfile := Portable |} w')
             <-> o = "--onefile")).
  { intros o Ho'. split.
    - intros Hi. assert (Hm : In o (List.filter is_packaging_mode (spec_options config
                     {| singleFile := true; showConsole := false; debugMode := false;
                        compress := false; stripDebugInfo := true; offlineMode := true;
                        optimizationProfile := Portable |} w')))
        by (apply filter_In; split; assumption).
      rewrite Hf in Hm. destruct Hm as [<-|[]]. reflexivity.
    - intros ->. assert (Hm : In "--onefile" (List.filter is_packaging_mode
                   (spec_options config
                     {| singleFile := true; showConsole := false; debugMode := false;
                        compress := false; stripDebugInfo := true; offlineMode := true;
                        optimizationProfile := Portable |} w')))
        by (rewrite Hf; left; reflexivity).
      apply filter_In in Hm. tauto. }
  split; [apply (Hin "--onefile" eq_refl); reflexivity|].
  split; [intros Hd; apply (Hin "--onedir" eq_refl) in Hd; discriminate|].
  split; [unfold Engine._get_exe_path; rewrite Ho; reflexivity|].
  unfold spec_options, spec_directives. right. right. right. left. reflexivity.
Qed.

(** X13: after the analysis is copied into the configuration, the two
    agree.  If the options are then planned in the state the analysis was
    made in, [--onefile] is among them exactly when [config.build.onefile]
    is set, and [--windowed] always is, since the copy turns the console
    off. *)
Theorem X13_applied_analysis_agrees
    (config config' : AppConfig) (w w' : FS) (d : gmap string PyVal)
    (opts : list string) :
  analyze_source (source_path (build config)) (source_type (build config)) w = Ok d ->
  apply_recommendations d config = Ok config' ->
  get_optimal_pyinstaller_options config' w = Ok (opts, w') ->
  (In "--onefile" opts <-> onefile (build config') = true)
  /\ (In "--onedir" opts <-> onefile (build config') = false)
  /\ In "--windowed" opts
  /\ upx_compress (build config') = false
  /\ strip_debug (build config') = true
  /\ debug (build config') = false.
Proof.
  intros Ha Hap H.
  destruct (options_inv config' w w' opts H) as (d' & r & Ha' & Hr & Hc & ->).
  assert (Hcases := analyze_source_cases _ _ _ _ Ha).
  assert (Hcfg : source_path (build config') = source_path (build config)
                 /\ source_type (build config') = source_type (build config)
                 /\ console (build config') = false
                 /\ upx_compress (build config') = false
                 /\ strip_debug (build config') = true
                 /\ debug (build config') = false
                 /\ exists r0, recommendation_of d = Some r0
                               /\ onefile (build config') = singleFile r0).
  { destruct Hcases as [->|[big [dev ->]]]; [|destruct big, dev];
      vm_compute in Hap; injection Hap as <-; cbn;
      repeat split; eexists; split; reflexivity. }
  destruct Hcfg as (Hp & Ht & Hcon & Hupx & Hstr & Hdbg & r0 & Hr0 & Hone).
  rewrite Hp, Ht, Ha in Ha'. injection Ha' as <-.
  rewrite Hr0 in Hr. injection Hr as <-.
  pose proof (spec_options_packaging config' r0 w') as Hf.
  pose proof (spec_options_windowed config' r0 w' Hc) as Hw.
  rewrite Hcon in Hw. rewrite Hone.
  assert (Hin : forall o, is_packaging_mode o = true ->
            (In o (spec_options config' r0 w')
             <-> o = if singleFile r0 then "--onefile" else "--onedir")).
  { intros o Ho'. split.
    - intros Hi.
      assert (Hm : In o (List.filter is_packaging_mode (spec_options config' r0 w')))
        by (apply filter_In; split; assumption).
      rewrite Hf in Hm. destruct Hm as [<-|[]]. reflexivity.
    - intros ->.
      assert (Hm : In (if singleFile r0 then "--onefile" else "--onedir")
                     (List.filter is_packaging_mode (spec_options config' r0 w')))
        by (rewrite Hf; left; reflexivity).
      apply filter_In in Hm. tauto. }
  split; [rewrite (Hin "--onefile" eq_refl);
          destruct (singleFile r0); split; congruence|].
  split; [rewrite (Hin "--onedir" eq_refl);
          destruct (singleFile r0); split; congruence|].
  split; [rewrite in_filter_eqb, Hw; left; reflexivity|].
  repeat split; assumption.
Qed.

End PlannerMore.

(** ** The option list on more concrete builds *)

Lemma url_onedir_options_linux :
  get_optimal_pyinstaller_options (os := MemFS.linux) url_onedir_config MemFS.site_cdn
  = Ok ("--noconfirm" :: "--clean" :: "--name=MyHTMLApp" :: "--distpath=out/dist"
        :: "--workpath=out/build/work" :: "--onefile" :: "--strip"
        :: map (fun imp => "--hidden-import=" +:+ imp) hidden_imports,
        MemFS.with_output_dirs "/" MemFS.site_cdn).
Proof. vm_compute. reflexivity. Qed.

Lemma X8_planner_ignores_build_flags_witness :
  get_optimal_pyinstaller_options (os := MemFS.linux) url_onedir_config MemFS.site_cdn
  = get_optimal_pyinstaller_options (os := MemFS.linux) url_config MemFS.site_cdn.
Proof.
  exact (X8_planner_ignores_build_flags (os := MemFS.linux)
           url_onedir_config url_config MemFS.site_cdn
           eq_refl eq_refl eq_refl eq_refl eq_refl eq_refl).
Defined.

Lemma X9_strip_always_windowed_by_console_witness :
  strip_debug (build url_onedir_config) = false
  /\ debug (build url_onedir_config) = true
  /\ exists opts w',
       get_optimal_pyinstaller_options (os := MemFS.linux)
         url_onedir_config MemFS.site_cdn = Ok (opts, w')
       /\ In "--strip" opts
       /\ (In "--windowed" opts <-> console (build url_onedir_config) = false).
Proof.
  split; [reflexivity|]. split; [reflexivity|].
  eexists. eexists. split; [exact url_onedir_options_linux|].
  exact (X9_strip_always_windowed_by_console (os := MemFS.linux)
           url_onedir_config MemFS.site_cdn _ _ url_onedir_options_linux).
Defined.

Lemma X10_planner_failures_witness :
  get_optimal_pyinstaller_options (os := MemFS.linux)
    blocked_output_config MemFS.site_cdn = Raise FileExistsError
  /\ BuildEngine._build_pyinstaller_command (os := MemFS.linux)
       blocked_output_config "main.py" MemFS.site_cdn = Raise FileExistsError.
Proof.
  apply (X10_planner_failures (os := MemFS.linux) blocked_output_config "main.py"
           MemFS.site_cdn FileExistsError).
  right. left. split; [|reflexivity].
  exists recommendations0. vm_compute. reflexivity.
Defined.

Lemma X11_options_without_duplicates_witness :
  List.NoDup (site_options "/" ":").
Proof.
  exact (X11_options_without_duplicates (os := MemFS.linux) site_config
           MemFS.site_cdn _ _ site_options_linux).
Defined.

Lemma X12_exe_path_can_disagree_witness :
  exists opts w',
    get_optimal_pyinstaller_options (os := MemFS.linux)
      url_onedir_config MemFS.site_cdn = Ok (opts, w')
    /\ In "--onefile" opts
    /\ ~ In "--onedir" opts
    /\ Engine._get_exe_path (os := MemFS.linux) url_onedir_config
       = "out/dist/MyHTMLApp/MyHTMLApp.exe"
    /\ In "--distpath=out/dist" opts.
Proof.
  eexists. eexists. split; [exact url_onedir_options_linux|].
  exact (X12_exe_path_can_disagree (os := MemFS.linux) url_onedir_config
           MemFS.site_cdn _ _ eq_refl eq_refl url_onedir_options_linux).
Defined.

Lemma big_applied_options_linux :
  get_optimal_pyinstaller_options (os := MemFS.linux) big_config_applied MemFS.site_big
  = Ok ("--noconfirm" :: "--clean" :: "--name=MyHTMLApp" :: "--distpath=out/dist"
        :: "--workpath=out/build/work" :: "--onedir" :: "--windowed" :: "--strip"
        :: "--add-data=out/build/html_assets:html_assets"
        :: map (fun imp => "--hidden-import=" +:+ imp) hidden_imports,
        MemFS.with_output_dirs "/" MemFS.site_big).
Proof. vm_compute. reflexivity. Qed.

Lemma X13_applied_analysis_agrees_witness :
  console (build big_config) = true
  /\ apply_recommendations (folder_dict true false) big_config = Ok big_config_applied
  /\ exists opts w',
       get_optimal_pyinstaller_options (os := MemFS.linux)
         big_config_applied MemFS.site_big = Ok (opts, w')
       /\ (In "--onefile" opts <-> onefile (build big_config_applied) = true)
       /\ (In "--onedir" opts <-> onefile (build big_config_applied) = false)
       /\ In "--windowed" opts
       /\ upx_compress (build big_config_applied) = false
       /\ strip_debug (build big_config_applied) = true
       /\ debug (build big_config_applied) = false.
Proof.
  assert (Hap : apply_recommendations (folder_dict true false) big_config
                = Ok big_config_applied)
    by (vm_compute; reflexivity).
  split; [reflexivity|]. split; [exact Hap|].
  eexists. eexists. split; [exact big_applied_options_linux|].
  refine (X13_applied_analysis_agrees (os := MemFS.linux) big_config
            big_config_applied MemFS.site_big _ (folder_dict true false) _ _ Hap
            big_applied_options_linux).
  vm_compute; reflexivity.
Defined.

(** ** The earlier build engine *)

Section LegacyFacts.
Context {FS : Type} `{os : OS FS}.

Lemma legacy_command_shape (config : AppConfig) (main_script_path : string) (w : FS) :
  Legacy._build_pyinstaller_command config main_script_path w
  = [sys_executable; "-m"; "PyInstaller"]
    ++ legacy_options config w ++ [main_script_path].
Proof.
  unfold Legacy._build_pyinstaller_command, legacy_options, icon_directive,
    Engine.dist_dir, Engine.build_dir.
  destruct (onefile (build config)), (console (build config)),
    (negb (String.eqb (icon_path (build config)) "")
       && path_exists (icon_path (build config)) w),
    (String.eqb (source_type (build config)) "folder"),
    (upx_compress (build config)), (debug (build config));
    reflexivity.
Qed.

Ltac legacy_cases config w :=
  unfold legacy_options, icon_directive;
  destruct (onefile (build config)), (console (build config)),
    (negb (String.eqb (icon_path (build config)) "")
       && path_exists (icon_path (build config)) w),
    (String.eqb (source_type (build config)) "folder"),
    (upx_compress (build config)), (debug (build config));
  reflexivity.

Lemma legacy_options_packaging (config : AppConfig) (w : FS) :
  List.filter is_packaging_mode (legacy_options config w)
  = if onefile (build config) then ["--onefile"] else [].
Proof. legacy_cases config w. Qed.

Lemma legacy_options_compression (config : AppConfig) (w : FS) :
  List.filter is_compression (legacy_options config w)
  = if upx_compress (build config) then ["--upx-dir=upx"] else [].
Proof. legacy_cases config w. Qed.

Lemma legacy_options_windowed (config : AppConfig) (w : FS) :
  List.filter (String.eqb "--windowed") (legacy_options config w)
  = if console (build config) then [] else ["--windowed"].
Proof. legacy_cases config w. Qed.

Lemma legacy_options_debug (config : AppConfig) (w : FS) :
  List.filter (fun o => String.eqb o "--debug=all" || String.eqb o "--strip")
    (legacy_options config w)
  = [if debug (build config) then "--debug=all" else "--strip"].
Proof. legacy_cases config w. Qed.

Lemma legacy_options_data (config : AppConfig) (w : FS) :
  List.filter is_data_inclusion (legacy_options config w)
  = if String.eqb (source_type (build config)) "folder"
    then ["--add-data=" +:+ path_join (Engine.build_dir config) "html_assets"
            +:+ ";html_assets"]
    else [].
Proof. legacy_cases config w. Qed.

Lemma in_filter_class (cls : string -> bool) (x : string) (l : list string) :
  cls x = true -> (In x l <-> In x (List.filter cls l)).
Proof. intros H. rewrite filter_In. tauto. Qed.

(** X14: the earlier engine takes the packaging mode, the compression and
    the window mode from the configuration: between the interpreter call
    and the entry-point path, [--onefile] is present exactly when
    [onefile] is set (and [--onedir] never is), [--upx-dir=upx] exactly
    when [upx_compress] is set, [--windowed] exactly when [console] is
    off. *)
Theorem X14_legacy_follows_configuration
    (config : AppConfig) (main_script_path : string) (w : FS) :
  exists opts,
    Legacy._build_pyinstaller_command config main_script_path w
    = [sys_executable; "-m"; "PyInstaller"] ++ opts ++ [main_script_path]
    /\ (In "--onefile" opts <-> onefile (build config) = true)
    /\ ~ In "--onedir" opts
    /\ (In "--upx-dir=upx" opts <-> upx_compress (build config) = true)
    /\ (In "--windowed" opts <-> console (build config) = false).
Proof.
  exists (legacy_options config w).
  split; [apply legacy_command_shape|].
  rewrite (in_filter_class is_packaging_mode "--onefile" _ eq_refl).
  rewrite (in_filter_class is_packaging_mode "--onedir" _ eq_refl).
  rewrite (in_filter_class is_compression "--upx-dir=upx" _ eq_refl).
  rewrite (in_filter_eqb "--windowed").
  rewrite legacy_options_packaging, legacy_options_compression,
    legacy_options_windowed.
  destruct (onefile (build config)), (upx_compress (build config)),
    (console (build config)); cbn [In]; intuition discriminate.
Qed.

(** X15: the earlier engine ends its options with exactly one of
    [--debug=all] and [--strip], chosen by [debug] alone: with [debug]
    off, [--strip] is given even when [strip_debug] is off. *)
Theorem X15_legacy_debug_or_strip
    (config : AppConfig) (main_script_path : string) (w : FS) :
  exists opts,
    Legacy._build_pyinstaller_command config main_script_path w
    = [sys_executable; "-m"; "PyInstaller"] ++ opts ++ [main_script_path]
    /\ (In "--debug=all" opts <-> debug (build config) = true)
    /\ (In "--strip" opts <-> debug (build config) = false)
    /\ last opts = Some (if debug (build config) then "--debug=all" else "--strip").
Proof.
  exists (legacy_options config w).
  split; [apply legacy_command_shape|].
  rewrite (in_filter_class
             (fun o => String.eqb o "--debug=all" || String.eqb o "--strip")
             "--debug=all" _ eq_refl).
  rewrite (in_filter_class
             (fun o => String.eqb o "--debug=all" || String.eqb o "--strip")
             "--strip" _ eq_refl).
  rewrite legacy_options_debug.
  split; [|split].
  - destruct (debug (build config)); cbn [In]; intuition discriminate.
  - destruct (debug (build config)); cbn [In]; intuition discriminate.
  - unfold legacy_options. rewrite !app_assoc. apply last_snoc.
Qed.

(** X16: the earlier engine writes the data directive with [;] on every
    platform: it is present exactly for a folder source, and it is
    [--add-data=<build_dir>/html_assets;html_assets] whatever
    [sys.platform] is. *)
Theorem X16_legacy_separator_fixed
    (config : AppConfig) (main_script_path : string) (w : FS) :
  exists opts,
    Legacy._build_pyinstaller_command config main_script_path w
    = [sys_executable; "-m"; "PyInstaller"] ++ opts ++ [main_script_path]
    /\ (existsb is_data_inclusion opts = true
        <-> source_type (build config) = "folder")
    /\ (forall o, In o opts -> is_data_inclusion o = true ->
          o = "--add-data=" +:+ path_join (Engine.build_dir config) "html_assets"
              +:+ ";html_assets").
Proof.
  exists (legacy_options config w).
  split; [apply legacy_command_shape|].
  pose proof (legacy_options_data config w) as Hf.
  split.
  - rewrite <- String.eqb_eq.
    destruct (String.eqb (source_type (build config)) "folder").
    + split; [reflexivity|]. intros _. apply existsb_exists.
      eexists. rewrite <- filter_In, Hf. left. reflexivity.
    + split; [|discriminate]. intros He. apply existsb_exists in He.
      destruct He as (o & Ho). rewrite <- filter_In, Hf in Ho. destruct Ho.
  - intros o Hin Ho.
    assert (Hm : In o (List.filter is_data_inclusion (legacy_options config w)))
      by (apply filter_In; split; assumption).
    rewrite Hf in Hm.
    destruct (String.eqb (source_type (build config)) "folder");
      [destruct Hm as [<-|[]]; reflexivity | destruct Hm].
Qed.

End LegacyFacts.

Lemma X16_legacy_separator_fixed_witness :
  sys_platform (os := MemFS.linux) = "linux"
  /\ exists opts,
       Legacy._build_pyinstaller_command (os := MemFS.linux)
         legacy_config "out/build/main.py" MemFS.site_cdn
       = ["/usr/bin/python3"; "-m"; "PyInstaller"] ++ opts ++ ["out/build/main.py"]
       /\ (existsb is_data_inclusion opts = true
           <-> source_type (build legacy_config) = "folder")
       /\ (forall o, In o opts -> is_data_inclusion o = true ->
             o = "--add-data=out/build/html_assets;html_assets").
Proof.
  split; [reflexivity|].
  exact (X16_legacy_separator_fixed (os := MemFS.linux) legacy_config
           "out/build/main.py" MemFS.site_cdn).
Defined.

Lemma X14_legacy_follows_configuration_witness :
  exists opts,
    Legacy._build_pyinstaller_command (os := MemFS.linux)
      legacy_config "out/build/main.py" MemFS.site_cdn
    = ["/usr/bin/python3"; "-m"; "PyInstaller"] ++ opts ++ ["out/build/main.py"]
    /\ (In "--onefile" opts <-> onefile (build legacy_config) = true)
    /\ ~ In "--onedir" opts
    /\ (In "--upx-dir=upx" opts <-> upx_compress (build legacy_config) = true)
    /\ (In "--windowed" opts <-> console (build legacy_config) = false).
Proof.
  exact (X14_legacy_follows_configuration (os := MemFS.linux) legacy_config
           "out/build/main.py" MemFS.site_cdn).
Defined.

Lemma X15_legacy_debug_or_strip_witness :
  strip_debug (build legacy_config) = false
  /\ exists opts,
       Legacy._build_pyinstaller_command (os := MemFS.linux)
         legacy_config "out/build/main.py" MemFS.site_cdn
       = ["/usr/bin/python3"; "-m"; "PyInstaller"] ++ opts ++ ["out/build/main.py"]
       /\ (In "--debug=all" opts <-> debug (build legacy_config) = true)
       /\ (In "--strip" opts <-> debug (build legacy_config) = false)
       /\ last opts = Some "--strip".
Proof.
  split; [reflexivity|].
  exact (X15_legacy_debug_or_strip (os := MemFS.linux) legacy_config
           "out/build/main.py" MemFS.site_cdn).
Defined.

(** ** The wizard *)

Lemma show_step_range (i cur : Z) :
  0 <= cur <= 6 -> 0 <= ModernGUI._show_step i cur <= 6.
Proof.
  intros Hc. unfold ModernGUI._show_step.
  destruct (existsb (Z.eqb i) ModernGUI.step_frames) eqn:He; [|exact Hc].
  apply existsb_exists in He. destruct He as (k & Hk & Hik).
  apply Z.eqb_eq in Hik. subst k.
  cbn in Hk. lia.
Qed.

(** X17: the step counter stays within the seven steps, [0] to [6],
    whatever sequence of Next, Previous and sidebar actions is run, also
    for a sidebar index that is no step. *)
Theorem X17_step_stays_in_range (actions : list ModernGUI.action) (current_step : Z) :
  0 <= current_step <= 6 ->
  0 <= ModernGUI.run actions current_step <= 6.
Proof.
  unfold ModernGUI.run. revert current_step.
  induction actions as [|a rest IH]; intros cur Hc; [exact Hc|].
  cbn [fold_left]. apply IH.
  destruct a as [| |i]; cbn [ModernGUI.step].
  - unfold ModernGUI._next_step.
    destruct (cur <? _); [apply show_step_range|]; exact Hc.
  - unfold ModernGUI._prev_step.
    destruct (0 <? cur); [apply show_step_range|]; exact Hc.
  - apply show_step_range. exact Hc.
Qed.

(** X18: Next and Previous undo each other away from the ends, and do
    nothing at the ends: Previous after Next returns to a step before the
    last, Next after Previous returns to a step after the first, Next at
    the last step and Previous at the first leave the step as it is. *)
Theorem X18_next_prev_round_trip (current_step : Z) :
  0 <= current_step <= 6 ->
  (current_step < 6 ->
   ModernGUI._prev_step (ModernGUI._next_step current_step) = current_step)
  /\ (0 < current_step ->
      ModernGUI._next_step (ModernGUI._prev_step current_step) = current_step)
  /\ (current_step = 6 -> ModernGUI._next_step current_step = current_step)
  /\ (current_step = 0 -> ModernGUI._prev_step current_step = current_step).
Proof.
  intros Hc.
  assert (H : current_step = 0 \/ current_step = 1 \/ current_step = 2
              \/ current_step = 3 \/ current_step = 4 \/ current_step = 5
              \/ current_step = 6) by lia.
  destruct H as [->|[->|[->|[->|[->|[->| ->]]]]]];
    repeat split; intros; try lia; reflexivity.
Qed.

Lemma X17_step_stays_in_range_witness :
  ModernGUI.run
    [ModernGUI.Next; ModernGUI.Show 9; ModernGUI.Show 5; ModernGUI.Next;
     ModernGUI.Next; ModernGUI.Show (-1); ModernGUI.Prev] 0 = 5
  /\ 0 <= ModernGUI.run
            [ModernGUI.Next; ModernGUI.Show 9; ModernGUI.Show 5; ModernGUI.Next;
             ModernGUI.Next; ModernGUI.Show (-1); ModernGUI.Prev] 0 <= 6.
Proof.
  split; [reflexivity|].
  apply (X17_step_stays_in_range
           [ModernGUI.Next; ModernGUI.Show 9; ModernGUI.Show 5; ModernGUI.Next;
            ModernGUI.Next; ModernGUI.Show (-1); ModernGUI.Prev] 0).
  lia.
Defined.

Lemma X18_next_prev_round_trip_witness :
  ModernGUI._prev_step (ModernGUI._next_step 3) = 3
  /\ ModernGUI._next_step (ModernGUI._prev_step 3) = 3.
Proof.
  destruct (X18_next_prev_round_trip 3 ltac:(lia)) as (H1 & H2 & _).
  split; [apply H1 | apply H2]; lia.
Defined.
